(** * JsonEditDistanceEvaluator

    A shallow embedding of
    [libs/langchain/langchain/evaluation/parsing/json_distance.py]:
    the evaluator that resolves a prediction and a reference to JSON
    values, renders both with a canonicalization function (by default
    [json.dumps(x, separators=(",", ":"), sort_keys=True)]) and scores the
    two renderings with a string distance.

    Python values are an inductive type, Python strings are lists of code
    points, dictionaries are association lists in insertion order, and a
    Python call is a computation that records the external calls it makes
    and either returns a value or raises.  The encoder raises where the
    interpreter does: on an [int] longer than the limit on decimal
    numerals, and on lists and dictionaries nested deeper than the
    recursion limit allows. *)

From Stdlib Require Import ZArith NArith List String Ascii Bool Lia.
From Stdlib Require Import Permutation Sorting DecimalString SpecFloat.
Import ListNotations.

Open Scope string_scope.
Open Scope list_scope.

(** ** Python strings *)

(** A Python [str] is a sequence of Unicode code points. *)
Definition pystr : Type := list N.

(** The [str] written as an ASCII literal in the source. *)
Definition lit (s : string) : pystr :=
  map N_of_ascii (list_ascii_of_string s).

(** [a < b] on [str]: lexicographic on code points. *)
Definition str_compare (a b : pystr) : comparison :=
  list_compare N.compare a b.

Definition str_ltb (a b : pystr) : bool :=
  match str_compare a b with
  | Lt => true
  | _ => false
  end.

(** Items of a dictionary ordered by their keys. *)
Definition key_lt {V : Type} (x y : pystr * V) : Prop :=
  str_ltb (fst x) (fst y) = true.

(** [sep.join(parts)] *)
Fixpoint join (sep : pystr) (parts : list pystr) : pystr :=
  match parts with
  | [] => []
  | [p] => p
  | p :: rest => p ++ sep ++ join sep rest
  end.

(** ** Python values *)

(** The values [_parse_json] is declared to return:
    [Union[dict, list, None, float, bool, int, str]].  A [float] is an
    IEEE 754 datum; a [dict] keeps its items in insertion order and, as
    produced by a JSON parser, has [str] keys. *)
#[warnings="-register-all"]
Inductive pyobj : Type :=
| PyNone
| PyBool (b : bool)
| PyInt (z : Z)
| PyFloat (f : spec_float)
| PyStr (s : pystr)
| PyList (l : list pyobj)
| PyDict (d : list (pystr * pyobj)).

(** [isinstance(node, str)] *)
Definition isinstance_str (node : pyobj) : bool :=
  match node with
  | PyStr _ => true
  | _ => false
  end.

(** The keys of a dictionary, in insertion order. *)
Definition keys {V : Type} (d : list (pystr * V)) : list pystr :=
  map fst d.

(** The invariant of Python dictionaries: no key occurs twice, at any
    depth. *)
Fixpoint wf_pyobj (o : pyobj) : Prop :=
  match o with
  | PyList l => fold_right (fun x acc => wf_pyobj x /\ acc) True l
  | PyDict d =>
      NoDup (keys d) /\
      fold_right (fun kv acc => wf_pyobj (snd kv) /\ acc) True d
  | _ => True
  end.

(** ** Induction on values *)

Section PyobjInd.

Variable P : pyobj -> Prop.

Hypothesis HNone : P PyNone.
Hypothesis HBool : forall b, P (PyBool b).
Hypothesis HInt : forall z, P (PyInt z).
Hypothesis HFloat : forall f, P (PyFloat f).
Hypothesis HStr : forall s, P (PyStr s).
Hypothesis HList : forall l, Forall P l -> P (PyList l).
Hypothesis HDict :
  forall d, Forall (fun kv => P (snd kv)) d -> P (PyDict d).

Fixpoint pyobj_nested_ind (o : pyobj) : P o :=
  match o with
  | PyNone => HNone
  | PyBool b => HBool b
  | PyInt z => HInt z
  | PyFloat f => HFloat f
  | PyStr s => HStr s
  | PyList l =>
      HList l
        ((fix items (l : list pyobj) : Forall P l :=
            match l with
            | [] => Forall_nil _
            | x :: l' => Forall_cons x (pyobj_nested_ind x) (items l')
            end) l)
  | PyDict d =>
      HDict d
        ((fix items (d : list (pystr * pyobj))
            : Forall (fun kv => P (snd kv)) d :=
            match d with
            | [] => Forall_nil _
            | (k, v) :: d' =>
                Forall_cons (k, v) (pyobj_nested_ind v) (items d')
            end) d)
  end.

End PyobjInd.

(** ** Exceptions and calls *)

Inductive exn : Type :=
| ImportError (msg : string)
| ModuleNotFoundError (msg : string)
| JSONDecodeError (msg : string)
| OtherException (cls msg : string).

(** [except ImportError] also catches the subclass
    [ModuleNotFoundError]. *)
Definition is_ImportError (e : exn) : bool :=
  match e with
  | ImportError _ | ModuleNotFoundError _ => true
  | _ => false
  end.

Inductive result (A : Type) : Type :=
| Ok (a : A)
| Raise (e : exn).

Arguments Ok {A} a.
Arguments Raise {A} e.

(** The calls that leave this module. *)
Inductive event : Type :=
| Import_rapidfuzz
| Call_parse_json_markdown (text : pystr)
| Call_canonicalize (x : pyobj)
| Call_string_distance (a b : pyobj).

(** A computation: the external calls it made, in order, and its
    outcome. *)
Definition Py (A : Type) : Type := (list event * result A)%type.

Definition ret {A : Type} (a : A) : Py A := ([], Ok a).

Definition bind {A B : Type} (c : Py A) (k : A -> Py B) : Py B :=
  match c with
  | (t, Ok a) => let '(t', r) := k a in (t ++ t', r)
  | (t, Raise e) => (t, Raise e)
  end.

(** An external call: recorded, then its outcome. *)
Definition call {A : Type} (ev : event) (r : result A) : Py A := ([ev], r).

Definition trace {A : Type} (c : Py A) : list event := fst c.

Definition outcome {A : Type} (c : Py A) : result A := snd c.

Declare Scope py_scope.
Delimit Scope py_scope with py.
Notation "x <- c ;; k" := (bind c (fun x => k))
  (at level 61, c at next level, right associativity) : py_scope.

(** ** [json.dumps(x, separators=(",", ":"), sort_keys=True)] *)

Module Json.

(** One lower-case hexadecimal digit, as a code point. *)
Definition hex_digit (n : N) : N :=
  (if n <? 10 then 48 + n else 87 + n)%N.

(** ['{0:04x}'.format(n)] for [n < 0x10000]. *)
Definition hex4 (n : N) : pystr :=
  [ hex_digit ((n / 4096) mod 16); hex_digit ((n / 256) mod 16);
    hex_digit ((n / 16) mod 16); hex_digit (n mod 16) ]%N.

(** ['\\u{0:04x}'.format(n)] *)
Definition u_escape (n : N) : pystr := [92; 117]%N ++ hex4 n.

(** The replacement of one character by [py_encode_basestring_ascii]:
    the table [ESCAPE_DCT], then [\uXXXX], then a surrogate pair. *)
Definition escape_char (c : N) : pystr :=
  (if c =? 92 then [92; 92]
   else if c =? 34 then [92; 34]
   else if c =? 8 then [92; 98]
   else if c =? 12 then [92; 102]
   else if c =? 10 then [92; 110]
   else if c =? 13 then [92; 114]
   else if c =? 9 then [92; 116]
   else if (32 <=? c) && (c <=? 126) then [c]
   else if c <? 65536 then u_escape c
   else
     let n := c - 65536 in
     let s1 := N.lor 55296 (N.land (N.shiftr n 10) 1023) in
     let s2 := N.lor 56320 (N.land n 1023) in
     u_escape s1 ++ u_escape s2)%N.

(** [encode_basestring_ascii(s)]: quoted, with every character outside
    [' '..'~'], the backslash and the quote escaped. *)
Definition encode_basestring_ascii (s : pystr) : pystr :=
  [34%N] ++ flat_map escape_char s ++ [34%N].

(** [int.__repr__] *)
Definition int_repr (z : Z) : pystr :=
  lit (NilZero.string_of_int (Z.to_int z)).

(** [sorted(dct.items())]: Python's sort is stable and uses [<] only;
    the keys of a dictionary being distinct, [<] on the item tuples is
    decided by the keys. *)
Fixpoint insort {V : Type} (x : pystr * V) (l : list (pystr * V))
  : list (pystr * V) :=
  match l with
  | [] => [x]
  | y :: l' =>
      if str_ltb (fst y) (fst x) then y :: insort x l' else x :: y :: l'
  end.

Definition sorted {V : Type} (l : list (pystr * V)) : list (pystr * V) :=
  fold_right insort [] l.

(** One rendered item: [key ":" value]. *)
Definition render_item (kv : pystr * pystr) : pystr :=
  encode_basestring_ascii (fst kv) ++ lit ":" ++ snd kv.

(** The limits of the running interpreter that the encoder can meet. *)
Record limits : Type := {
  (** [sys.get_int_max_str_digits()]: the longest decimal numeral an [int]
      may be converted to; [0] is no limit. *)
  int_max_str_digits : nat;
  (** How many nested lists and dictionaries the encoder may still enter
      where it is called, before [RecursionError]. *)
  recursion_depth : nat
}.

(** The [ValueError] of [int.__repr__] beyond the limit. *)
Definition int_too_long (max_digits : nat) : exn :=
  OtherException "ValueError"
    ("Exceeds the limit (" ++ NilZero.string_of_uint (Nat.to_uint max_digits)
     ++ " digits) for integer string conversion; "
     ++ "use sys.set_int_max_str_digits() to increase the limit").

(** The [RecursionError] of the encoder. *)
Definition too_deep : exn :=
  OtherException "RecursionError"
    "maximum recursion depth exceeded while encoding a JSON object".

(** The outcomes of a list of steps run in order: the first exception, or
    all the values. *)
Fixpoint sequence {A : Type} (rs : list (result A)) : result (list A) :=
  match rs with
  | [] => Ok []
  | Ok a :: rs' =>
      match sequence rs' with
      | Ok l => Ok (a :: l)
      | Raise e => Raise e
      end
  | Raise e :: _ => Raise e
  end.

(** One item whose value has been rendered, or has raised. *)
Definition render_item_result (kr : pystr * result pystr) : result pystr :=
  match snd kr with
  | Ok v => Ok (render_item (fst kr, v))
  | Raise e => Raise e
  end.

Section Dumps.

(** [float.__repr__] on finite floats, the shortest decimal string that
    reads back as the same float.  It belongs to the interpreter. *)
Variable float_repr : spec_float -> pystr.

Variable lim : limits.

(** [floatstr] of [json.encoder], with [allow_nan=True]. *)
Definition floatstr (f : spec_float) : pystr :=
  match f with
  | S754_nan => lit "NaN"
  | S754_infinity false => lit "Infinity"
  | S754_infinity true => lit "-Infinity"
  | _ => float_repr f
  end.

(** [int.__repr__] as the interpreter runs it: numerals of more than 640
    characters are checked against the limit on their digits. *)
Definition int_str (z : Z) : result pystr :=
  let digits := List.length (int_repr (Z.abs z)) in
  let strlen := (digits + (if (z <? 0)%Z then 1 else 0))%nat in
  if ((640 <? strlen) && (0 <? int_max_str_digits lim) &&
      (int_max_str_digits lim <? digits))%nat
  then Raise (int_too_long (int_max_str_digits lim))
  else Ok (int_repr z).

(** The encoder, with [depth] lists and dictionaries left to enter.  The
    items of a dictionary are rendered and then sorted by key, the first
    exception in that order being the one raised; [encode_dict] below shows
    this is the source's sorting of the items followed by their rendering
    in turn. *)
Fixpoint encode (depth : nat) (o : pyobj) {struct o} : result pystr :=
  match o with
  | PyNone => Ok (lit "null")
  | PyBool true => Ok (lit "true")
  | PyBool false => Ok (lit "false")
  | PyInt z => int_str z
  | PyFloat f => Ok (floatstr f)
  | PyStr s => Ok (encode_basestring_ascii s)
  | PyList l =>
      match depth with
      | O => Raise too_deep
      | S depth' =>
          match sequence (map (encode depth') l) with
          | Ok parts => Ok (lit "[" ++ join (lit ",") parts ++ lit "]")
          | Raise e => Raise e
          end
      end
  | PyDict d =>
      match depth with
      | O => Raise too_deep
      | S depth' =>
          match sequence
                  (map render_item_result
                     (sorted
                        (map (fun kv => (fst kv, encode depth' (snd kv))) d)))
          with
          | Ok parts => Ok (lit "{" ++ join (lit ",") parts ++ lit "}")
          | Raise e => Raise e
          end
      end
  end.

(** [json.dumps(o, separators=(",", ":"), sort_keys=True)] *)
Definition dumps (o : pyobj) : result pystr :=
  encode (recursion_depth lim) o.

End Dumps.

End Json.

(** ** The evaluator *)

(** A [Callable[[str, str], float]]: a function that returns or raises.  The
    configured callables are taken to be pure, as the evaluator treats
    them. *)
Definition string_distance_fn : Type := pyobj -> pyobj -> result pyobj.

(** A [Callable[[Any], Any]]. *)
Definition canonicalize_fn : Type := pyobj -> result pyobj.

(** The attributes [__init__] sets on the instance. *)
Record JsonEditDistanceEvaluator : Type := {
  _string_distance : string_distance_fn;
  _canonicalize : canonicalize_fn
}.

(** The message of the [ImportError] raised by [__init__]. *)
Definition rapidfuzz_missing_msg : string :=
  "The default string_distance operator for the " ++
  " JsonEditDistanceEvaluator requires installation of " ++
  "the rapidfuzz package. " ++
  "Please install it with `pip install rapidfuzz`.".

(** [needle in haystack] on the messages. *)
Fixpoint str_contains (needle haystack : string) : bool :=
  String.prefix needle haystack ||
  match haystack with
  | EmptyString => false
  | String _ rest => str_contains needle rest
  end.

(** [requires_input] *)
Definition requires_input (self : JsonEditDistanceEvaluator) : bool := false.

(** [requires_reference] *)
Definition requires_reference (self : JsonEditDistanceEvaluator) : bool :=
  true.

(** [evaluation_name] *)
Definition evaluation_name (self : JsonEditDistanceEvaluator) : pystr :=
  lit "json_edit_distance".

Open Scope py_scope.

Section Evaluator.

(** The interpreter's [float.__repr__]. *)
Variable float_repr : spec_float -> pystr.

(** The interpreter's limits where the evaluator is used. *)
Variable lim : Json.limits.

(** [langchain.output_parsers.json.parse_json_markdown]: the value it
    extracts from a text, or the exception it raises. *)
Variable parse_json_markdown : pystr -> result pyobj.

(** The outcome of [from rapidfuzz import distance as rfd] in the running
    environment: [rfd.DamerauLevenshtein.normalized_distance] when the
    package is installed, the exception of the import otherwise. *)
Variable import_rapidfuzz : result string_distance_fn.

(** The default canonicalization:
    [lambda x: json.dumps(x, separators=(",", ":"), sort_keys=True)]. *)
Definition default_canonicalize : canonicalize_fn :=
  fun x =>
    match Json.dumps float_repr lim x with
    | Ok s => Ok (PyStr s)
    | Raise e => Raise e
    end.

(** The [try: from rapidfuzz import ... except ImportError: raise
    ImportError(...)] of [__init__], followed by the attribute lookup. *)
Definition default_string_distance : Py string_distance_fn :=
  match import_rapidfuzz with
  | Ok rfd => call Import_rapidfuzz (Ok rfd)
  | Raise e =>
      if is_ImportError e
      then call Import_rapidfuzz (Raise (ImportError rapidfuzz_missing_msg))
      else call Import_rapidfuzz (Raise e)
  end.

(** [super().__init__()] sets nothing this class reads, and [kwargs] is
    not used. *)
Definition __init__
    (string_distance : option string_distance_fn)
    (canonicalize : option canonicalize_fn)
    (kwargs : list (pystr * pyobj)) : Py JsonEditDistanceEvaluator :=
  sd <- match string_distance with
        | Some f => ret f
        | None => default_string_distance
        end ;;
  let c := match canonicalize with
           | Some f => f
           | None => default_canonicalize
           end in
  ret {| _string_distance := sd; _canonicalize := c |}.

Definition _parse_json (self : JsonEditDistanceEvaluator) (node : pyobj)
  : Py pyobj :=
  match node with
  | PyStr text =>
      call (Call_parse_json_markdown text) (parse_json_markdown text)
  | _ => ret node
  end.

Definition _distance (self : JsonEditDistanceEvaluator) (a b : pyobj)
  : Py pyobj :=
  call (Call_string_distance a b) (_string_distance self a b).

(** The call [self._canonicalize(x)]. *)
Definition call_canonicalize (self : JsonEditDistanceEvaluator) (x : pyobj)
  : Py pyobj :=
  call (Call_canonicalize x) (_canonicalize self x).

(** [input] and [reference] default to [None]; [kwargs] collects the
    remaining keyword arguments. *)
Definition _evaluate_strings (self : JsonEditDistanceEvaluator)
    (prediction input reference : pyobj) (kwargs : list (pystr * pyobj))
  : Py pyobj :=
  p <- _parse_json self prediction ;;
  parsed <- call_canonicalize self p ;;
  r <- _parse_json self reference ;;
  label <- call_canonicalize self r ;;
  distance <- _distance self parsed label ;;
  ret (PyDict [(lit "score", distance)]).

End Evaluator.

(** ** Dictionaries that differ by insertion order *)

(** [reordered a b]: [b] is [a] with the items of its dictionaries, at any
    depth, inserted in another order. *)
#[warnings="-register-all"]
Inductive reordered : pyobj -> pyobj -> Prop :=
| reordered_same (o : pyobj) : reordered o o
| reordered_list (l1 l2 : list pyobj) :
    Forall2 reordered l1 l2 -> reordered (PyList l1) (PyList l2)
| reordered_dict (d1 d d2 : list (pystr * pyobj)) :
    Permutation d1 d ->
    Forall2 (fun a b => fst a = fst b /\ reordered (snd a) (snd b)) d d2 ->
    reordered (PyDict d1) (PyDict d2).

(** ** Observations on calls and scores *)

(** Whether [parse_json_markdown] was called. *)
Definition calls_extractor (t : list event) : bool :=
  existsb (fun ev => match ev with
                     | Call_parse_json_markdown _ => true
                     | _ => false
                     end) t.

(** Whether the string distance was called. *)
Definition calls_string_distance (t : list event) : bool :=
  existsb (fun ev => match ev with
                     | Call_string_distance _ _ => true
                     | _ => false
                     end) t.

(** Whether [rapidfuzz] was imported. *)
Definition imports_rapidfuzz (t : list event) : bool :=
  existsb (fun ev => match ev with
                     | Import_rapidfuzz => true
                     | _ => false
                     end) t.

(** [score == 0] *)
Definition eq_zero (score : pyobj) : bool :=
  match score with
  | PyInt z => (z =? 0)%Z
  | PyFloat (S754_zero _) => true
  | PyBool b => negb b
  | _ => false
  end.

(** ** Sample environments *)

Module Sample.

(** A [float.__repr__] that is right on the zeros only. *)
Definition float_repr (f : spec_float) : pystr :=
  match f with
  | S754_zero false => lit "0.0"
  | S754_zero true => lit "-0.0"
  | _ => lit "1.0"
  end.

Definition str_eqb (a b : pystr) : bool :=
  match str_compare a b with
  | Eq => true
  | _ => false
  end.

(** An extractor that knows three texts. *)
Definition parse_json_markdown (text : pystr) : result pyobj :=
  if str_eqb text (lit "null") then Ok PyNone
  else if str_eqb text (lit "[1, 2]") then Ok (PyList [PyInt 1; PyInt 2])
  else if str_eqb text (lit "{}") then Ok (PyDict [])
  else Raise (JSONDecodeError "Expecting value").

(** The floats [0.0], [1.0] and [2.5]. *)
Definition f0 : spec_float := S754_zero false.
Definition f1 : spec_float := S754_finite false 4503599627370496 (-52).
Definition f2_5 : spec_float := S754_finite false 5 (-1).

(** The discrete distance: [0.0] on equal strings, [1.0] otherwise. *)
Definition discrete_distance (a b : pyobj) : result pyobj :=
  match a, b with
  | PyStr x, PyStr y => Ok (PyFloat (if str_eqb x y then f0 else f1))
  | _, _ => Raise (OtherException "TypeError" "expected str")
  end.

(** A distance outside [0, 1]. *)
Definition far_distance (a b : pyobj) : result pyobj := Ok (PyFloat f2_5).

(** An environment without [rapidfuzz]. *)
Definition no_rapidfuzz : result string_distance_fn :=
  Raise (ModuleNotFoundError "No module named 'rapidfuzz'").

(** An environment with [rapidfuzz], scoring with the discrete
    distance. *)
Definition with_rapidfuzz : result string_distance_fn :=
  Ok discrete_distance.

(** The limits of an interpreter started with its defaults, the encoder
    being called a few frames deep. *)
Definition lim : Json.limits :=
  {| Json.int_max_str_digits := 4300; Json.recursion_depth := 990 |}.

Definition evaluator (d : string_distance_fn) : JsonEditDistanceEvaluator :=
  {| _string_distance := d;
     _canonicalize := default_canonicalize float_repr lim |}.

End Sample.

(** ** Observations on traces and canonical forms *)

Definition is_extractor_call (ev : event) : bool :=
  match ev with
  | Call_parse_json_markdown _ => true
  | _ => false
  end.

Definition is_canonicalize_call (ev : event) : bool :=
  match ev with
  | Call_canonicalize _ => true
  | _ => false
  end.

Definition is_distance_call (ev : event) : bool :=
  match ev with
  | Call_string_distance _ _ => true
  | _ => false
  end.

(** How many calls of one kind a trace holds. *)
Definition count (kind : event -> bool) (t : list event) : nat :=
  List.length (filter kind t).

(** The code points [' '..'~']. *)
Definition printable (c : N) : Prop := (32 <= c <= 126)%N.

(** [Q] holds of every [str] inside a value: the strings and the keys of the
    dictionaries, at any depth. *)
Fixpoint all_strs (Q : pystr -> Prop) (o : pyobj) : Prop :=
  match o with
  | PyStr s => Q s
  | PyList l => fold_right (fun x acc => all_strs Q x /\ acc) True l
  | PyDict d =>
      fold_right
        (fun kv acc => (Q (fst kv) /\ all_strs Q (snd kv)) /\ acc) True d
  | _ => True
  end.

(** The code points ['!'..'~']: printable and not a space. *)
Definition visible (c : N) : Prop := (33 <= c <= 126)%N.

(** The characters the encoder writes by itself: delimiters, digits, sign
    and the letters of its literals. *)
Definition structural_chars : pystr :=
  lit "[]{},:-0123456789nulltruefalseNaNInfinity".

(** * Properties *)

(** ** The order on strings *)

Lemma str_compare_eq (a b : pystr) : str_compare a b = Eq <-> a = b.
Proof. apply list_compare_refl, N.compare_eq_iff. Qed.

Lemma str_compare_antisym (a b : pystr) :
  str_compare b a = CompOpp (str_compare a b).
Proof.
  apply list_compare_antisym.
  - apply N.compare_eq_iff.
  - intros x y. apply N.compare_antisym.
Qed.

Lemma N_compare_trans (x y z : N) (c : comparison) :
  (x ?= y)%N = c -> (y ?= z)%N = c -> (x ?= z)%N = c.
Proof.
  destruct c; intros H1 H2.
  - apply N.compare_eq_iff in H1, H2. subst. apply N.compare_refl.
  - rewrite N.compare_lt_iff in *. lia.
  - rewrite N.compare_gt_iff in *. lia.
Qed.

Lemma str_ltb_trans (a b c : pystr) :
  str_ltb a b = true -> str_ltb b c = true -> str_ltb a c = true.
Proof.
  unfold str_ltb. intros H1 H2.
  destruct (str_compare a b) eqn:E1; try discriminate.
  destruct (str_compare b c) eqn:E2; try discriminate.
  unfold str_compare in *.
  rewrite (list_compare_trans N.compare N.compare_eq_iff a b c
             N_compare_trans (fun x y => N.compare_antisym x y) E1 E2).
  reflexivity.
Qed.

Lemma str_ltb_irrefl (a : pystr) : str_ltb a a = false.
Proof.
  unfold str_ltb.
  now rewrite (proj2 (str_compare_eq a a) eq_refl).
Qed.

Lemma str_ltb_asym (a b : pystr) :
  str_ltb a b = true -> str_ltb b a = false.
Proof.
  unfold str_ltb. rewrite (str_compare_antisym a b).
  now destruct (str_compare a b).
Qed.

(** [<] is total on distinct strings. *)
Lemma str_ltb_total (a b : pystr) :
  a <> b -> str_ltb b a = false -> str_ltb a b = true.
Proof.
  unfold str_ltb. rewrite (str_compare_antisym a b).
  intros Hne. destruct (str_compare a b) eqn:E; simpl; try easy.
  apply str_compare_eq in E. contradiction.
Qed.

(** ** Sorting the items of a dictionary *)

Section Sorted.

Context {V : Type}.
Implicit Types (x : pystr * V) (l : list (pystr * V)).

Lemma insort_perm x l : Permutation (Json.insort x l) (x :: l).
Proof.
  induction l as [|y l IH]; simpl.
  - reflexivity.
  - destruct (str_ltb (fst y) (fst x)).
    + rewrite IH. apply perm_swap.
    + reflexivity.
Qed.

Lemma sorted_perm l : Permutation (Json.sorted l) l.
Proof.
  induction l as [|x l IH]; simpl.
  - reflexivity.
  - rewrite insort_perm. now constructor.
Qed.

Lemma insort_strict x l :
  StronglySorted key_lt l ->
  ~ In (fst x) (keys l) ->
  StronglySorted key_lt (Json.insort x l).
Proof.
  induction l as [|y l IH]; simpl; intros Hs Hnin.
  - repeat constructor.
  - inversion Hs as [|? ? Hs' Hall]; subst.
    destruct (str_ltb (fst y) (fst x)) eqn:E.
    + constructor.
      * apply IH; tauto.
      * apply (Permutation_Forall (Permutation_sym (insort_perm x l))).
        constructor; assumption.
    + assert (Hxy : key_lt x y).
      { apply str_ltb_total; [intros Heq; apply Hnin; now left | exact E]. }
      constructor; [assumption|].
      constructor; [assumption|].
      eapply Forall_impl; [|exact Hall].
      intros z Hz. unfold key_lt in *. eapply str_ltb_trans; eassumption.
Qed.

Lemma sorted_strict l :
  NoDup (keys l) -> StronglySorted key_lt (Json.sorted l).
Proof.
  induction l as [|x l IH]; simpl; intros Hnd.
  - constructor.
  - inversion Hnd as [|? ? Hnin Hnd']; subst.
    apply insort_strict; [now apply IH|].
    intros Hin. apply Hnin.
    eapply Permutation_in; [|exact Hin].
    apply Permutation_map, sorted_perm.
Qed.

(** Two strictly sorted lists with the same items are the same list. *)
Lemma strict_sorted_unique l1 l2 :
  StronglySorted key_lt l1 -> StronglySorted key_lt l2 ->
  Permutation l1 l2 -> l1 = l2.
Proof.
  revert l2. induction l1 as [|a l1 IH]; intros l2 H1 H2 Hp.
  - now apply Permutation_nil in Hp.
  - destruct l2 as [|b l2].
    + symmetry in Hp. now apply Permutation_nil in Hp.
    + inversion H1 as [|? ? H1' Ha]; subst.
      inversion H2 as [|? ? H2' Hb]; subst.
      assert (Hab : a = b).
      { assert (Hina : In a (b :: l2))
          by (eapply Permutation_in; [exact Hp | now left]).
        assert (Hinb : In b (a :: l1))
          by (eapply Permutation_in;
              [exact (Permutation_sym Hp) | now left]).
        destruct Hina as [-> | Hina]; [reflexivity|].
        destruct Hinb as [-> | Hinb]; [reflexivity|].
        rewrite Forall_forall in Ha, Hb.
        specialize (Ha _ Hinb). specialize (Hb _ Hina).
        unfold key_lt in *. apply str_ltb_asym in Ha. congruence. }
      subst b. f_equal.
      apply IH; try assumption.
      eapply Permutation_cons_inv; exact Hp.
Qed.

(** [sorted] does not depend on the insertion order of a dictionary. *)
Lemma sorted_insertion_order l1 l2 :
  NoDup (keys l1) -> Permutation l1 l2 -> Json.sorted l1 = Json.sorted l2.
Proof.
  intros Hnd Hp.
  apply strict_sorted_unique.
  - now apply sorted_strict.
  - apply sorted_strict.
    eapply Permutation_NoDup; [|exact Hnd].
    now apply Permutation_map.
  - rewrite (sorted_perm l1), (sorted_perm l2). exact Hp.
Qed.

End Sorted.

(** Sorting commutes with a rendering of the values. *)
Lemma insort_map_values {V W : Type} (f : V -> W) (x : pystr * V)
    (l : list (pystr * V)) :
  Json.insort (fst x, f (snd x)) (map (fun kv => (fst kv, f (snd kv))) l) =
  map (fun kv => (fst kv, f (snd kv))) (Json.insort x l).
Proof.
  induction l as [|y l IH]; simpl.
  - reflexivity.
  - destruct (str_ltb (fst y) (fst x)); simpl; [now rewrite IH | reflexivity].
Qed.

Lemma sorted_map_values {V W : Type} (f : V -> W) (l : list (pystr * V)) :
  Json.sorted (map (fun kv => (fst kv, f (snd kv))) l) =
  map (fun kv => (fst kv, f (snd kv))) (Json.sorted l).
Proof.
  induction l as [|x l IH]; simpl.
  - reflexivity.
  - rewrite IH. apply insort_map_values.
Qed.

(** The dictionary case of the encoder in the order of the source: sort the
    items, then render each in turn as [key ":" value], stopping at the first
    value whose rendering raises. *)
Lemma encode_dict (float_repr : spec_float -> pystr) (lim : Json.limits)
    (depth : nat) (d : list (pystr * pyobj)) :
  Json.encode float_repr lim (S depth) (PyDict d) =
  match Json.sequence
          (map (fun kv =>
                  match Json.encode float_repr lim depth (snd kv) with
                  | Ok v =>
                      Ok (Json.encode_basestring_ascii (fst kv) ++ lit ":" ++
                          v)
                  | Raise e => Raise e
                  end)
             (Json.sorted d))
  with
  | Ok parts => Ok (lit "{" ++ join (lit ",") parts ++ lit "}")
  | Raise e => Raise e
  end.
Proof.
  cbn [Json.encode]. rewrite sorted_map_values, map_map. reflexivity.
Qed.

Lemma wf_list (l : list pyobj) :
  wf_pyobj (PyList l) <-> Forall wf_pyobj l.
Proof.
  cbn [wf_pyobj]. induction l as [|x l IH]; simpl.
  - split; constructor.
  - rewrite IH. split.
    + intros [? ?]. now constructor.
    + now inversion 1.
Qed.

Lemma wf_dict (d : list (pystr * pyobj)) :
  wf_pyobj (PyDict d) <->
  NoDup (keys d) /\ Forall (fun kv => wf_pyobj (snd kv)) d.
Proof.
  cbn [wf_pyobj].
  assert (H : fold_right (fun kv acc => wf_pyobj (snd kv) /\ acc) True d <->
              Forall (fun kv => wf_pyobj (snd kv)) d).
  { induction d as [|x d IH]; simpl.
    - split; constructor.
    - rewrite IH. split.
      + intros [? ?]. now constructor.
      + now inversion 1. }
  now rewrite H.
Qed.

Lemma Forall2_map_eq {A B : Type} (f : A -> B) (R : A -> A -> Prop)
    (l1 l2 : list A) :
  Forall2 R l1 l2 ->
  Forall (fun a => forall b, R a b -> f a = f b) l1 ->
  map f l1 = map f l2.
Proof.
  induction 1 as [|a b l1 l2 Hab _ IH]; intros Hall; simpl.
  - reflexivity.
  - inversion Hall; subst. f_equal; auto.
Qed.

(** ** The default canonicalization and insertion order *)

(** The encoder treats alike two values that differ only by the insertion
    order of their dictionaries, at any depth: it renders both to the same
    string or raises the same exception on both. *)
Lemma encode_reordered (float_repr : spec_float -> pystr)
    (lim : Json.limits) (o1 : pyobj) :
  wf_pyobj o1 ->
  forall o2, reordered o1 o2 ->
  forall depth,
    Json.encode float_repr lim depth o1 = Json.encode float_repr lim depth o2.
Proof.
  induction o1 as [| | | | |l IH|d IH] using pyobj_nested_ind;
    intros Hwf o2 Hr depth; inversion Hr; subst; try reflexivity.
  - (* list *)
    destruct depth as [|depth]; [reflexivity|].
    cbn [Json.encode].
    apply wf_list in Hwf.
    rewrite (Forall2_map_eq (Json.encode float_repr lim depth) reordered
               l l2); [reflexivity | assumption |].
    rewrite Forall_forall in *. intros a Ha b Hab. now apply IH; auto.
  - (* dict *)
    rename d0 into d'.
    apply wf_dict in Hwf. destruct Hwf as [Hnd Hwf].
    destruct depth as [|depth]; [reflexivity|].
    cbn [Json.encode].
    set (g := fun kv : pystr * pyobj =>
                (fst kv, Json.encode float_repr lim depth (snd kv))).
    assert (Hs : Json.sorted (map g d) = Json.sorted (map g d2)).
    { transitivity (Json.sorted (map g d')).
      - apply sorted_insertion_order.
        + unfold keys in *. rewrite map_map. exact Hnd.
        + now apply Permutation_map.
      - f_equal.
        eapply Forall2_map_eq; [eassumption|].
        rewrite Forall_forall in *. intros a Ha b [Hk Hab].
        assert (Ha' : In a d)
          by (eapply Permutation_in; [apply Permutation_sym|]; eassumption).
        unfold g. rewrite Hk. f_equal. now apply IH; auto. }
    now rewrite Hs.
Qed.

Lemma dumps_reordered (float_repr : spec_float -> pystr)
    (lim : Json.limits) (o1 : pyobj) :
  wf_pyobj o1 ->
  forall o2, reordered o1 o2 ->
  Json.dumps float_repr lim o1 = Json.dumps float_repr lim o2.
Proof.
  intros Hwf o2 Hr. unfold Json.dumps. now apply encode_reordered.
Qed.

(** ** The encoder on examples *)

Example dumps_scalars :
  Json.dumps Sample.float_repr Sample.lim
    (PyList [PyInt (-12); PyNone; PyBool true; PyBool false;
             PyFloat S754_nan; PyFloat (S754_infinity true); PyList []]) =
  Ok (lit "[-12,null,true,false,NaN,-Infinity,[]]").
Proof. reflexivity. Qed.

Example dumps_sorts_keys :
  Json.dumps Sample.float_repr Sample.lim
    (PyDict [(lit "b", PyInt 2); (lit "a", PyDict []); (lit "B", PyNone)]) =
  Ok (lit "{" ++ [34; 66; 34]%N ++ lit ":null," ++ [34; 97; 34]%N ++
      lit ":{}," ++ [34; 98; 34]%N ++ lit ":2}").
Proof. reflexivity. Qed.

(** An [int] of 4301 digits is not rendered under the default limit. *)
Example dumps_long_int :
  Json.dumps Sample.float_repr Sample.lim (PyInt (10 ^ 4300)) =
  Raise (Json.int_too_long 4300).
Proof. vm_compute. reflexivity. Qed.

(** Three nested lists are too deep where two may be entered; the first
    failure in key order is the one raised. *)
Example dumps_too_deep :
  Json.dumps Sample.float_repr
    {| Json.int_max_str_digits := 4300; Json.recursion_depth := 2 |}
    (PyDict [(lit "b", PyInt 1); (lit "a", PyList [PyList []])]) =
  Raise Json.too_deep.
Proof. reflexivity. Qed.

(** An evaluation stops at the canonicalization of such a prediction. *)
Example evaluate_long_int :
  _evaluate_strings Sample.parse_json_markdown
    (Sample.evaluator Sample.discrete_distance)
    (PyInt (10 ^ 4300)) PyNone PyNone [] =
  ([Call_canonicalize (PyInt (10 ^ 4300))],
   Raise (Json.int_too_long 4300)).
Proof. vm_compute. reflexivity. Qed.

Example encode_escapes :
  Json.encode_basestring_ascii [233; 10; 128512; 127; 65; 34]%N =
  [34%N] ++ lit "\u00e9\n\ud83d\ude00\u007fA\" ++ [34; 34]%N.
Proof. reflexivity. Qed.

(** ** The evaluation pipeline *)

Section Pipeline.

Variable parse_json_markdown : pystr -> result pyobj.
Variable self : JsonEditDistanceEvaluator.

Local Abbreviation resolve := (_parse_json parse_json_markdown self).
Local Abbreviation evaluate := (_evaluate_strings parse_json_markdown self).

(** A resolution never calls the string distance. *)
Lemma resolve_no_distance (node : pyobj) :
  calls_string_distance (trace (resolve node)) = false.
Proof. now destruct node. Qed.

(** The evaluation, step by step: where it stops, what it has called by
    then, and what it returns. *)
Lemma evaluate_steps (prediction input reference : pyobj)
    (kwargs : list (pystr * pyobj)) :
  evaluate prediction input reference kwargs =
  let t1 := trace (resolve prediction) in
  match outcome (resolve prediction) with
  | Raise e => (t1, Raise e)
  | Ok p =>
      let t2 := t1 ++ [Call_canonicalize p] in
      match _canonicalize self p with
      | Raise e => (t2, Raise e)
      | Ok parsed =>
          let t3 := t2 ++ trace (resolve reference) in
          match outcome (resolve reference) with
          | Raise e => (t3, Raise e)
          | Ok r =>
              let t4 := t3 ++ [Call_canonicalize r] in
              match _canonicalize self r with
              | Raise e => (t4, Raise e)
              | Ok label =>
                  (t4 ++ [Call_string_distance parsed label],
                   match _string_distance self parsed label with
                   | Ok distance => Ok (PyDict [(lit "score", distance)])
                   | Raise e => Raise e
                   end)
              end
          end
      end
  end.
Proof.
  unfold _evaluate_strings, call_canonicalize, _distance, call, trace, outcome.
  destruct (resolve prediction) as [t1 [p|e]]; simpl; [|reflexivity].
  destruct (_canonicalize self p) as [parsed|e]; simpl; [|reflexivity].
  destruct (resolve reference) as [t3 [r|e]]; simpl.
  2: { rewrite <- ?app_assoc; reflexivity. }
  destruct (_canonicalize self r) as [label|e]; simpl.
  2: { rewrite <- ?app_assoc; reflexivity. }
  destruct (_string_distance self parsed label); simpl;
    rewrite <- ?app_assoc; reflexivity.
Qed.

End Pipeline.

(** ** Construction *)

Section Construction.

Variable float_repr : spec_float -> pystr.
Variable lim : Json.limits.
Variable import_rapidfuzz : result string_distance_fn.

Local Abbreviation init := (__init__ float_repr lim import_rapidfuzz).

(** With a distance supplied, construction returns at once. *)
Lemma init_supplied (f : string_distance_fn)
    (canonicalize : option canonicalize_fn) (kwargs : list (pystr * pyobj)) :
  init (Some f) canonicalize kwargs =
  ret {| _string_distance := f;
         _canonicalize := match canonicalize with
                          | Some c => c
                          | None => default_canonicalize float_repr lim
                          end |}.
Proof. reflexivity. Qed.

(** Without one, construction imports [rapidfuzz] and follows the outcome
    of the import. *)
Lemma init_default (canonicalize : option canonicalize_fn)
    (kwargs : list (pystr * pyobj)) :
  init None canonicalize kwargs =
  ([Import_rapidfuzz],
   match import_rapidfuzz with
   | Ok rfd =>
       Ok {| _string_distance := rfd;
             _canonicalize := match canonicalize with
                              | Some c => c
                              | None => default_canonicalize float_repr lim
                              end |}
   | Raise e =>
       Raise (if is_ImportError e
              then ImportError rapidfuzz_missing_msg else e)
   end).
Proof.
  unfold __init__, default_string_distance.
  destruct import_rapidfuzz as [rfd|e]; [reflexivity|].
  now destruct (is_ImportError e).
Qed.

(** The attributes of a constructed evaluator. *)
Lemma init_ok (string_distance : option string_distance_fn)
    (canonicalize : option canonicalize_fn) (kwargs : list (pystr * pyobj))
    (ev : JsonEditDistanceEvaluator) :
  outcome (init string_distance canonicalize kwargs) = Ok ev ->
  _canonicalize ev = match canonicalize with
                     | Some c => c
                     | None => default_canonicalize float_repr lim
                     end /\
  match string_distance with
  | Some f => _string_distance ev = f
  | None => import_rapidfuzz = Ok (_string_distance ev)
  end.
Proof.
  destruct string_distance as [f|].
  - rewrite init_supplied. cbn. intros [= <-]. now split.
  - rewrite init_default. cbn.
    destruct import_rapidfuzz as [rfd|e]; [|discriminate].
    intros [= <-]. now split.
Qed.

End Construction.

(** * The claims *)

(** C1: for every prediction and reference, [_evaluate_strings] resolves the
    prediction and canonicalizes it to [A], resolves the reference and
    canonicalizes it to [B], applies the configured distance to [(A, B)] and
    returns the dictionary whose single item is ["score"] with that value;
    these calls are made in this order and no other. *)
Theorem evaluate_strings_pipeline
    (parse_json_markdown : pystr -> result pyobj)
    (self : JsonEditDistanceEvaluator)
    (prediction input reference : pyobj) (kwargs : list (pystr * pyobj))
    (p A r B score : pyobj) :
  outcome (_parse_json parse_json_markdown self prediction) = Ok p ->
  _canonicalize self p = Ok A ->
  outcome (_parse_json parse_json_markdown self reference) = Ok r ->
  _canonicalize self r = Ok B ->
  _string_distance self A B = Ok score ->
  _evaluate_strings parse_json_markdown self prediction input reference
    kwargs =
  (trace (_parse_json parse_json_markdown self prediction) ++
   [Call_canonicalize p] ++
   trace (_parse_json parse_json_markdown self reference) ++
   [Call_canonicalize r; Call_string_distance A B],
   Ok (PyDict [(lit "score", score)])).
Proof.
  intros Hp HA Hr HB Hs.
  rewrite evaluate_steps. cbv zeta.
  rewrite Hp, HA, Hr, HB, Hs.
  f_equal. rewrite <- !app_assoc. reflexivity.
Qed.

Lemma evaluate_strings_pipeline_witness :
  _evaluate_strings Sample.parse_json_markdown
    (Sample.evaluator Sample.discrete_distance)
    (PyStr (lit "[1, 2]")) PyNone (PyList [PyInt 1; PyInt 3]) [] =
  ([Call_parse_json_markdown (lit "[1, 2]");
    Call_canonicalize (PyList [PyInt 1; PyInt 2]);
    Call_canonicalize (PyList [PyInt 1; PyInt 3]);
    Call_string_distance (PyStr (lit "[1,2]")) (PyStr (lit "[1,3]"))],
   Ok (PyDict [(lit "score", PyFloat Sample.f1)])).
Proof.
  apply (evaluate_strings_pipeline Sample.parse_json_markdown
           (Sample.evaluator Sample.discrete_distance)
           (PyStr (lit "[1, 2]")) PyNone (PyList [PyInt 1; PyInt 3]) []
           (PyList [PyInt 1; PyInt 2]) (PyStr (lit "[1,2]"))
           (PyList [PyInt 1; PyInt 3]) (PyStr (lit "[1,3]"))
           (PyFloat Sample.f1));
    reflexivity.
Defined.

(** C2: two dictionaries with the same keys and values, inserted in
    different orders at any nesting level (the keys of a dictionary being
    distinct), have the same default canonical form: the default
    canonicalization returns the same string for both, and where it raises
    on one it raises the same exception on the other. *)
Theorem canonicalize_key_order_invariant
    (float_repr : spec_float -> pystr) (lim : Json.limits)
    (M1 M2 : list (pystr * pyobj)) :
  wf_pyobj (PyDict M1) ->
  reordered (PyDict M1) (PyDict M2) ->
  default_canonicalize float_repr lim (PyDict M1) =
  default_canonicalize float_repr lim (PyDict M2).
Proof.
  intros Hwf Hr. unfold default_canonicalize.
  now rewrite (dumps_reordered float_repr lim (PyDict M1) Hwf (PyDict M2) Hr).
Qed.

Lemma canonicalize_key_order_invariant_witness :
  default_canonicalize Sample.float_repr Sample.lim
    (PyDict [(lit "b", PyInt 3);
             (lit "a", PyDict [(lit "x", PyInt 1); (lit "y", PyInt 2)])]) =
  default_canonicalize Sample.float_repr Sample.lim
    (PyDict [(lit "a", PyDict [(lit "y", PyInt 2); (lit "x", PyInt 1)]);
             (lit "b", PyInt 3)]).
Proof.
  apply (canonicalize_key_order_invariant Sample.float_repr Sample.lim
           [(lit "b", PyInt 3);
            (lit "a", PyDict [(lit "x", PyInt 1); (lit "y", PyInt 2)])]
           [(lit "a", PyDict [(lit "y", PyInt 2); (lit "x", PyInt 1)]);
            (lit "b", PyInt 3)]).
  - cbn. repeat split; repeat constructor; simpl; intuition discriminate.
  - apply (reordered_dict _
             [(lit "a", PyDict [(lit "x", PyInt 1); (lit "y", PyInt 2)]);
              (lit "b", PyInt 3)]).
    + apply perm_swap.
    + constructor; [|repeat constructor].
      split; [reflexivity|].
      apply (reordered_dict _ [(lit "y", PyInt 2); (lit "x", PyInt 1)]).
      * apply perm_swap.
      * repeat constructor.
Defined.

(** C3: with the default canonicalization and a distance that is zero on
    every pair of equal strings, evaluating against itself a value that
    resolves and whose canonicalization returns yields a score equal to
    zero. *)
Theorem evaluate_identity_score
    (float_repr : spec_float -> pystr) (lim : Json.limits)
    (parse_json_markdown : pystr -> result pyobj)
    (import_rapidfuzz : result string_distance_fn)
    (string_distance : option string_distance_fn)
    (init_kwargs : list (pystr * pyobj))
    (ev : JsonEditDistanceEvaluator)
    (X input v A : pyobj) (kwargs : list (pystr * pyobj)) :
  outcome (__init__ float_repr lim import_rapidfuzz string_distance None
             init_kwargs) = Ok ev ->
  (forall s, exists z,
      _string_distance ev (PyStr s) (PyStr s) = Ok z /\ eq_zero z = true) ->
  outcome (_parse_json parse_json_markdown ev X) = Ok v ->
  _canonicalize ev v = Ok A ->
  exists score,
    outcome (_evaluate_strings parse_json_markdown ev X input X kwargs) =
    Ok (PyDict [(lit "score", score)]) /\
    eq_zero score = true.
Proof.
  intros Hinit Hmetric Hv HA.
  destruct (init_ok _ _ _ _ _ _ _ Hinit) as [Hc _].
  assert (Hs : exists s, A = PyStr s).
  { rewrite Hc in HA. unfold default_canonicalize in HA.
    destruct (Json.dumps float_repr lim v) as [s|e]; [|discriminate].
    injection HA as <-. now exists s. }
  destruct Hs as [s ->].
  destruct (Hmetric s) as [z [Hz Hz0]].
  exists z. split; [|exact Hz0].
  rewrite evaluate_steps. cbv zeta. unfold outcome in *.
  rewrite Hv, HA. cbn. rewrite Hz. reflexivity.
Qed.

Lemma discrete_distance_refl (s : pystr) :
  exists z,
    Sample.discrete_distance (PyStr s) (PyStr s) = Ok z /\ eq_zero z = true.
Proof.
  exists (PyFloat Sample.f0). split; [|reflexivity].
  unfold Sample.discrete_distance, Sample.str_eqb.
  now rewrite (proj2 (str_compare_eq s s) eq_refl).
Defined.

Lemma evaluate_identity_score_witness :
  exists score,
    outcome (_evaluate_strings Sample.parse_json_markdown
               (Sample.evaluator Sample.discrete_distance)
               (PyStr (lit "[1, 2]")) PyNone (PyStr (lit "[1, 2]")) []) =
    Ok (PyDict [(lit "score", score)]) /\
    eq_zero score = true.
Proof.
  apply (evaluate_identity_score Sample.float_repr Sample.lim
           Sample.parse_json_markdown Sample.with_rapidfuzz None []
           (Sample.evaluator Sample.discrete_distance)
           (PyStr (lit "[1, 2]")) PyNone (PyList [PyInt 1; PyInt 2])
           (PyStr (lit "[1,2]")) []).
  - reflexivity.
  - exact discrete_distance_refl.
  - reflexivity.
  - reflexivity.
Defined.

(** C4: [_parse_json] calls the markdown extractor exactly when the value is
    a string, then returning what the extractor returns or raises; any other
    value is returned unchanged, with no call made. *)
Theorem parse_json_delegates_iff_str
    (parse_json_markdown : pystr -> result pyobj)
    (self : JsonEditDistanceEvaluator) (node : pyobj) :
  (calls_extractor (trace (_parse_json parse_json_markdown self node)) = true
   <-> isinstance_str node = true) /\
  (forall text, node = PyStr text ->
     _parse_json parse_json_markdown self node =
     ([Call_parse_json_markdown text], parse_json_markdown text)) /\
  (isinstance_str node = false ->
     _parse_json parse_json_markdown self node = ([], Ok node)).
Proof.
  split; [|split].
  - destruct node; cbn; split; trivial.
  - intros text ->. reflexivity.
  - destruct node; cbn; intros H; try reflexivity. discriminate.
Qed.

Lemma parse_json_delegates_iff_str_witness :
  _parse_json Sample.parse_json_markdown
    (Sample.evaluator Sample.discrete_distance)
    (PyDict [(lit "a", PyStr (lit "null"))]) =
  ([], Ok (PyDict [(lit "a", PyStr (lit "null"))])) /\
  _parse_json Sample.parse_json_markdown
    (Sample.evaluator Sample.discrete_distance) (PyStr (lit "null")) =
  ([Call_parse_json_markdown (lit "null")], Ok PyNone).
Proof.
  split.
  - apply (parse_json_delegates_iff_str Sample.parse_json_markdown
             (Sample.evaluator Sample.discrete_distance)
             (PyDict [(lit "a", PyStr (lit "null"))])).
    reflexivity.
  - apply (proj1 (proj2
             (parse_json_delegates_iff_str Sample.parse_json_markdown
                (Sample.evaluator Sample.discrete_distance)
                (PyStr (lit "null")))) (lit "null")).
    reflexivity.
Defined.

(** C5: [_distance] returns what the configured distance returns on
    [(a, b)], and a score returned by [_evaluate_strings] is the value the
    configured distance returned on the two canonical forms, whatever that
    value is. *)
Theorem distance_is_configured_distance
    (parse_json_markdown : pystr -> result pyobj)
    (self : JsonEditDistanceEvaluator) :
  (forall a b,
     _distance self a b =
     ([Call_string_distance a b], _string_distance self a b)) /\
  (forall prediction input reference kwargs res,
     outcome (_evaluate_strings parse_json_markdown self prediction input
                reference kwargs) = Ok res ->
     exists p A r B score,
       outcome (_parse_json parse_json_markdown self prediction) = Ok p /\
       _canonicalize self p = Ok A /\
       outcome (_parse_json parse_json_markdown self reference) = Ok r /\
       _canonicalize self r = Ok B /\
       _string_distance self A B = Ok score /\
       res = PyDict [(lit "score", score)]).
Proof.
  split; [reflexivity|].
  intros prediction input reference kwargs res.
  rewrite evaluate_steps. cbv zeta.
  destruct (outcome (_parse_json _ self prediction)) as [p|e] eqn:Hp;
    [|discriminate].
  destruct (_canonicalize self p) as [A|e] eqn:HA; [|discriminate].
  destruct (outcome (_parse_json _ self reference)) as [r|e] eqn:Hr;
    [|discriminate].
  destruct (_canonicalize self r) as [B|e] eqn:HB; [|discriminate].
  destruct (_string_distance self A B) as [score|e] eqn:Hs; [|discriminate].
  cbn. intros [= <-].
  exists p, A, r, B, score. repeat split; assumption.
Qed.

Lemma distance_is_configured_distance_witness :
  outcome (_evaluate_strings Sample.parse_json_markdown
             (Sample.evaluator Sample.far_distance)
             (PyStr (lit "{}")) PyNone (PyStr (lit "null")) []) =
  Ok (PyDict [(lit "score", PyFloat Sample.f2_5)]) /\
  exists p A r B score,
    outcome (_parse_json Sample.parse_json_markdown
               (Sample.evaluator Sample.far_distance) (PyStr (lit "{}"))) =
    Ok p /\
    _canonicalize (Sample.evaluator Sample.far_distance) p = Ok A /\
    outcome (_parse_json Sample.parse_json_markdown
               (Sample.evaluator Sample.far_distance) (PyStr (lit "null"))) =
    Ok r /\
    _canonicalize (Sample.evaluator Sample.far_distance) r = Ok B /\
    _string_distance (Sample.evaluator Sample.far_distance) A B = Ok score /\
    PyDict [(lit "score", PyFloat Sample.f2_5)] =
    PyDict [(lit "score", score)].
Proof.
  split; [reflexivity|].
  apply (proj2 (distance_is_configured_distance Sample.parse_json_markdown
                  (Sample.evaluator Sample.far_distance))
           (PyStr (lit "{}")) PyNone (PyStr (lit "null")) []
           (PyDict [(lit "score", PyFloat Sample.f2_5)])).
  reflexivity.
Defined.

(** C6: construction raises [ImportError] exactly when no distance is
    supplied and the import of [rapidfuzz] raises [ImportError]; the message
    is the fixed one, which names [rapidfuzz] and how to install it.  With a
    distance supplied, construction imports nothing and returns. *)
Theorem init_raises_iff_rapidfuzz_missing
    (float_repr : spec_float -> pystr) (lim : Json.limits)
    (import_rapidfuzz : result string_distance_fn)
    (string_distance : option string_distance_fn)
    (canonicalize : option canonicalize_fn)
    (kwargs : list (pystr * pyobj)) :
  ((exists msg,
      outcome (__init__ float_repr lim import_rapidfuzz string_distance
                 canonicalize kwargs) = Raise (ImportError msg)) <->
   (string_distance = None /\
    exists e, import_rapidfuzz = Raise e /\ is_ImportError e = true)) /\
  (forall msg,
     outcome (__init__ float_repr lim import_rapidfuzz string_distance
                canonicalize kwargs) = Raise (ImportError msg) ->
     msg = rapidfuzz_missing_msg) /\
  str_contains "rapidfuzz" rapidfuzz_missing_msg = true /\
  str_contains "Please install it with `pip install rapidfuzz`"
    rapidfuzz_missing_msg = true /\
  (forall f, string_distance = Some f ->
     imports_rapidfuzz
       (trace (__init__ float_repr lim import_rapidfuzz string_distance
                 canonicalize kwargs)) = false /\
     exists ev,
       outcome (__init__ float_repr lim import_rapidfuzz string_distance
                  canonicalize kwargs) = Ok ev /\
       _string_distance ev = f).
Proof.
  split; [|split; [|split; [|split]]].
  - destruct string_distance as [f|].
    + rewrite init_supplied. cbn. split.
      * intros [msg H]. discriminate.
      * intros [H _]. discriminate.
    + rewrite init_default. cbn. split.
      * intros [msg H]. split; [reflexivity|].
        destruct import_rapidfuzz as [rfd|e]; [discriminate|].
        exists e. split; [reflexivity|].
        destruct e; cbn in *; try reflexivity; discriminate.
      * intros [_ [e [-> He]]]. rewrite He. now eexists.
  - intros msg. destruct string_distance as [f|].
    + rewrite init_supplied. discriminate.
    + rewrite init_default. cbn.
      destruct import_rapidfuzz as [rfd|e]; [discriminate|].
      destruct e; cbn; intros [= <-]; reflexivity.
  - reflexivity.
  - reflexivity.
  - intros f ->. rewrite init_supplied. split; [reflexivity|].
    eexists. split; reflexivity.
Qed.

Lemma init_raises_iff_rapidfuzz_missing_witness :
  (exists msg,
     outcome (__init__ Sample.float_repr Sample.lim Sample.no_rapidfuzz None
                None []) =
     Raise (ImportError msg)) /\
  imports_rapidfuzz
    (trace (__init__ Sample.float_repr Sample.lim Sample.no_rapidfuzz
              (Some Sample.far_distance) None [])) = false.
Proof.
  split.
  - apply (proj2 (proj1 (init_raises_iff_rapidfuzz_missing Sample.float_repr
                           Sample.lim
                           Sample.no_rapidfuzz None None []))).
    split; [reflexivity|].
    exists (ModuleNotFoundError "No module named 'rapidfuzz'").
    split; reflexivity.
  - apply (proj2 (proj2 (proj2 (proj2
             (init_raises_iff_rapidfuzz_missing Sample.float_repr Sample.lim
                Sample.no_rapidfuzz (Some Sample.far_distance) None []))))
             Sample.far_distance).
    reflexivity.
Defined.

(** C7: when resolving the prediction raises, [_evaluate_strings] raises the
    same exception having called nothing else; when resolving the reference
    raises, it raises the same exception without calling the distance; and
    whenever one of the two does not resolve, no score is returned. *)
Theorem parse_error_propagates
    (parse_json_markdown : pystr -> result pyobj)
    (self : JsonEditDistanceEvaluator)
    (prediction input reference : pyobj) (kwargs : list (pystr * pyobj)) :
  (forall e,
     outcome (_parse_json parse_json_markdown self prediction) = Raise e ->
     _evaluate_strings parse_json_markdown self prediction input reference
       kwargs =
     (trace (_parse_json parse_json_markdown self prediction), Raise e)) /\
  (forall p A e,
     outcome (_parse_json parse_json_markdown self prediction) = Ok p ->
     _canonicalize self p = Ok A ->
     outcome (_parse_json parse_json_markdown self reference) = Raise e ->
     _evaluate_strings parse_json_markdown self prediction input reference
       kwargs =
     (trace (_parse_json parse_json_markdown self prediction) ++
      [Call_canonicalize p] ++
      trace (_parse_json parse_json_markdown self reference),
      Raise e)) /\
  (forall e,
     outcome (_parse_json parse_json_markdown self prediction) = Raise e \/
     outcome (_parse_json parse_json_markdown self reference) = Raise e ->
     calls_string_distance
       (trace (_evaluate_strings parse_json_markdown self prediction input
                 reference kwargs)) = false /\
     forall res,
       outcome (_evaluate_strings parse_json_markdown self prediction input
                  reference kwargs) <> Ok res).
Proof.
  split; [|split].
  - intros e H. rewrite evaluate_steps. cbv zeta. now rewrite H.
  - intros p A e Hp HA Hr. rewrite evaluate_steps. cbv zeta.
    rewrite Hp, HA, Hr. now rewrite <- app_assoc.
  - intros e H. rewrite evaluate_steps. cbv zeta.
    pose proof (resolve_no_distance parse_json_markdown self prediction)
      as Np.
    pose proof (resolve_no_distance parse_json_markdown self reference)
      as Nr.
    unfold calls_string_distance in *.
    destruct (outcome (_parse_json _ self prediction)) as [p|e1] eqn:Hp.
    2: { cbn. split; [exact Np | discriminate]. }
    destruct H as [H|H]; [discriminate|].
    destruct (_canonicalize self p) as [A|e2].
    2: { cbn. rewrite existsb_app, Np. split; [reflexivity | discriminate]. }
    rewrite H. cbn. rewrite !existsb_app, Np, Nr.
    split; [reflexivity | discriminate].
Qed.

Lemma parse_error_propagates_witness :
  _evaluate_strings Sample.parse_json_markdown
    (Sample.evaluator Sample.discrete_distance)
    (PyStr (lit "not json at all")) PyNone (PyStr (lit "{}")) [] =
  ([Call_parse_json_markdown (lit "not json at all")],
   Raise (JSONDecodeError "Expecting value")) /\
  _evaluate_strings Sample.parse_json_markdown
    (Sample.evaluator Sample.discrete_distance)
    (PyStr (lit "{}")) PyNone (PyStr (lit "not json at all")) [] =
  ([Call_parse_json_markdown (lit "{}"); Call_canonicalize (PyDict []);
    Call_parse_json_markdown (lit "not json at all")],
   Raise (JSONDecodeError "Expecting value")).
Proof.
  split.
  - apply (proj1 (parse_error_propagates Sample.parse_json_markdown
                    (Sample.evaluator Sample.discrete_distance)
                    (PyStr (lit "not json at all")) PyNone
                    (PyStr (lit "{}")) [])).
    reflexivity.
  - apply (proj1 (proj2 (parse_error_propagates Sample.parse_json_markdown
                    (Sample.evaluator Sample.discrete_distance)
                    (PyStr (lit "{}")) PyNone
                    (PyStr (lit "not json at all")) []))
             (PyDict []) (PyStr (lit "{}"))); reflexivity.
Defined.

(** C8: [requires_input] is [False], [requires_reference] is [True] and
    [evaluation_name] is ["json_edit_distance"], on every evaluator. *)
Theorem interop_constants (self : JsonEditDistanceEvaluator) :
  requires_input self = false /\
  requires_reference self = true /\
  evaluation_name self = lit "json_edit_distance".
Proof. repeat split. Qed.

(** C9: the [input] argument has no effect: two evaluations that differ only
    in it make the same calls and have the same outcome. *)
Theorem input_noninterference
    (parse_json_markdown : pystr -> result pyobj)
    (self : JsonEditDistanceEvaluator)
    (prediction reference input1 input2 : pyobj)
    (kwargs : list (pystr * pyobj)) :
  _evaluate_strings parse_json_markdown self prediction input1 reference
    kwargs =
  _evaluate_strings parse_json_markdown self prediction input2 reference
    kwargs.
Proof. rewrite !evaluate_steps. reflexivity. Qed.

(** C10: with [reference] left at [None] and the default canonicalization,
    [_evaluate_strings] does not check [requires_reference]: [None] resolves
    to itself without a call of the extractor and is rendered as ["null"];
    a prediction that resolves and whose rendering returns is scored against
    ["null"], the evaluation then raising only if the distance does. *)
Theorem missing_reference_scored_against_null
    (float_repr : spec_float -> pystr) (lim : Json.limits)
    (parse_json_markdown : pystr -> result pyobj)
    (import_rapidfuzz : result string_distance_fn)
    (string_distance : option string_distance_fn)
    (init_kwargs : list (pystr * pyobj))
    (ev : JsonEditDistanceEvaluator)
    (prediction input p : pyobj) (s : pystr)
    (kwargs : list (pystr * pyobj)) :
  outcome (__init__ float_repr lim import_rapidfuzz string_distance None
             init_kwargs) = Ok ev ->
  outcome (_parse_json parse_json_markdown ev prediction) = Ok p ->
  Json.dumps float_repr lim p = Ok s ->
  requires_reference ev = true /\
  _parse_json parse_json_markdown ev PyNone = ([], Ok PyNone) /\
  _canonicalize ev PyNone = Ok (PyStr (lit "null")) /\
  _evaluate_strings parse_json_markdown ev prediction input PyNone kwargs =
  (trace (_parse_json parse_json_markdown ev prediction) ++
   [Call_canonicalize p; Call_canonicalize PyNone;
    Call_string_distance (PyStr s) (PyStr (lit "null"))],
   match _string_distance ev (PyStr s) (PyStr (lit "null")) with
   | Ok score => Ok (PyDict [(lit "score", score)])
   | Raise e => Raise e
   end).
Proof.
  intros Hinit Hp Hs.
  destruct (init_ok _ _ _ _ _ _ _ Hinit) as [Hc _].
  split; [reflexivity|]. split; [reflexivity|].
  split; [now rewrite Hc|].
  rewrite evaluate_steps. cbv zeta.
  rewrite Hp, Hc. unfold default_canonicalize. rewrite Hs. cbn.
  rewrite <- !app_assoc. reflexivity.
Qed.

Lemma missing_reference_scored_against_null_witness :
  _evaluate_strings Sample.parse_json_markdown
    (Sample.evaluator Sample.discrete_distance)
    (PyStr (lit "[1, 2]")) PyNone PyNone [] =
  ([Call_parse_json_markdown (lit "[1, 2]");
    Call_canonicalize (PyList [PyInt 1; PyInt 2]);
    Call_canonicalize PyNone;
    Call_string_distance (PyStr (lit "[1,2]")) (PyStr (lit "null"))],
   Ok (PyDict [(lit "score", PyFloat Sample.f1)])).
Proof.
  apply (missing_reference_scored_against_null Sample.float_repr Sample.lim
           Sample.parse_json_markdown Sample.no_rapidfuzz
           (Some Sample.discrete_distance) []
           (Sample.evaluator Sample.discrete_distance)
           (PyStr (lit "[1, 2]")) PyNone (PyList [PyInt 1; PyInt 2])
           (lit "[1,2]") []);
    reflexivity.
Defined.

(** * Further properties *)

(** ** Outcomes of the evaluation *)

(** The outcome of an evaluation, from the outcomes of its steps. *)
Lemma evaluate_outcome
    (parse_json_markdown : pystr -> result pyobj)
    (self : JsonEditDistanceEvaluator)
    (prediction input reference : pyobj) (kwargs : list (pystr * pyobj)) :
  outcome (_evaluate_strings parse_json_markdown self prediction input
             reference kwargs) =
  match outcome (_parse_json parse_json_markdown self prediction) with
  | Raise e => Raise e
  | Ok p =>
      match _canonicalize self p with
      | Raise e => Raise e
      | Ok parsed =>
          match outcome (_parse_json parse_json_markdown self reference) with
          | Raise e => Raise e
          | Ok r =>
              match _canonicalize self r with
              | Raise e => Raise e
              | Ok label =>
                  match _string_distance self parsed label with
                  | Ok distance => Ok (PyDict [(lit "score", distance)])
                  | Raise e => Raise e
                  end
              end
          end
      end
  end.
Proof.
  rewrite evaluate_steps. cbv zeta.
  destruct (outcome (_parse_json _ self prediction)) as [p|e];
    [|reflexivity].
  destruct (_canonicalize self p) as [A|e]; [|reflexivity].
  destruct (outcome (_parse_json _ self reference)) as [r|e];
    [|reflexivity].
  destruct (_canonicalize self r) as [B|e]; reflexivity.
Qed.

(** X1: the default canonicalization gives the same string for two values
    that differ only by the insertion order of their dictionaries, at any
    nesting depth. *)
Theorem default_canonicalize_reordered
    (float_repr : spec_float -> pystr) (lim : Json.limits) (v1 v2 : pyobj) :
  wf_pyobj v1 ->
  reordered v1 v2 ->
  default_canonicalize float_repr lim v1 =
  default_canonicalize float_repr lim v2.
Proof.
  intros Hwf Hr. unfold default_canonicalize.
  now rewrite (dumps_reordered float_repr lim v1 Hwf v2 Hr).
Qed.

Lemma default_canonicalize_reordered_witness :
  default_canonicalize Sample.float_repr Sample.lim
    (PyList [PyDict [(lit "k", PyDict [(lit "b", PyInt 2); (lit "a", PyNone)]);
                     (lit "j", PyBool true)]]) =
  default_canonicalize Sample.float_repr Sample.lim
    (PyList [PyDict [(lit "j", PyBool true);
                     (lit "k", PyDict [(lit "a", PyNone); (lit "b", PyInt 2)])]]).
Proof.
  apply (default_canonicalize_reordered Sample.float_repr Sample.lim).
  - cbn. repeat split; repeat constructor; simpl; intuition discriminate.
  - apply reordered_list. constructor; [|constructor].
    apply (reordered_dict _
             [(lit "j", PyBool true);
              (lit "k", PyDict [(lit "b", PyInt 2); (lit "a", PyNone)])]).
    + apply perm_swap.
    + constructor; [split; [reflexivity | apply reordered_same]|].
      constructor; [|constructor].
      split; [reflexivity|].
      apply (reordered_dict _ [(lit "a", PyNone); (lit "b", PyInt 2)]).
      * apply perm_swap.
      * repeat constructor.
Defined.

(** X2: with the default canonicalization, the outcome of an evaluation does
    not depend on the insertion order of the dictionaries of the resolved
    prediction and reference. *)
Theorem score_key_order_invariant
    (float_repr : spec_float -> pystr) (lim : Json.limits)
    (parse_json_markdown : pystr -> result pyobj)
    (import_rapidfuzz : result string_distance_fn)
    (string_distance : option string_distance_fn)
    (init_kwargs : list (pystr * pyobj))
    (ev : JsonEditDistanceEvaluator)
    (prediction1 prediction2 reference1 reference2 input : pyobj)
    (p1 p2 r1 r2 : pyobj) (kwargs : list (pystr * pyobj)) :
  outcome (__init__ float_repr lim import_rapidfuzz string_distance None
             init_kwargs) = Ok ev ->
  outcome (_parse_json parse_json_markdown ev prediction1) = Ok p1 ->
  outcome (_parse_json parse_json_markdown ev prediction2) = Ok p2 ->
  wf_pyobj p1 -> reordered p1 p2 ->
  outcome (_parse_json parse_json_markdown ev reference1) = Ok r1 ->
  outcome (_parse_json parse_json_markdown ev reference2) = Ok r2 ->
  wf_pyobj r1 -> reordered r1 r2 ->
  outcome (_evaluate_strings parse_json_markdown ev prediction1 input
             reference1 kwargs) =
  outcome (_evaluate_strings parse_json_markdown ev prediction2 input
             reference2 kwargs).
Proof.
  intros Hinit Hp1 Hp2 Wp Rp Hr1 Hr2 Wr Rr.
  destruct (init_ok _ _ _ _ _ _ _ Hinit) as [Hc _].
  rewrite !evaluate_outcome, Hp1, Hp2, Hr1, Hr2, Hc.
  unfold default_canonicalize.
  rewrite (dumps_reordered float_repr lim p1 Wp p2 Rp).
  rewrite (dumps_reordered float_repr lim r1 Wr r2 Rr).
  reflexivity.
Qed.

Lemma score_key_order_invariant_witness :
  outcome (_evaluate_strings Sample.parse_json_markdown
             (Sample.evaluator Sample.discrete_distance)
             (PyDict [(lit "b", PyInt 2); (lit "a", PyInt 1)]) PyNone
             (PyStr (lit "[1, 2]")) []) =
  outcome (_evaluate_strings Sample.parse_json_markdown
             (Sample.evaluator Sample.discrete_distance)
             (PyDict [(lit "a", PyInt 1); (lit "b", PyInt 2)]) PyNone
             (PyList [PyInt 1; PyInt 2]) []).
Proof.
  apply (score_key_order_invariant Sample.float_repr Sample.lim
           Sample.parse_json_markdown Sample.no_rapidfuzz
           (Some Sample.discrete_distance) []
           (Sample.evaluator Sample.discrete_distance)
           (PyDict [(lit "b", PyInt 2); (lit "a", PyInt 1)])
           (PyDict [(lit "a", PyInt 1); (lit "b", PyInt 2)])
           (PyStr (lit "[1, 2]")) (PyList [PyInt 1; PyInt 2]) PyNone
           (PyDict [(lit "b", PyInt 2); (lit "a", PyInt 1)])
           (PyDict [(lit "a", PyInt 1); (lit "b", PyInt 2)])
           (PyList [PyInt 1; PyInt 2]) (PyList [PyInt 1; PyInt 2]) []);
    try reflexivity.
  - cbn. repeat split; repeat constructor; simpl; intuition discriminate.
  - apply (reordered_dict _ [(lit "a", PyInt 1); (lit "b", PyInt 2)]).
    + apply perm_swap.
    + repeat constructor.
  - cbn. tauto.
  - apply reordered_same.
Defined.

(** A value the default canonicalization returns is a string, the rendering
    of the encoder. *)
Lemma default_canonicalize_ok (float_repr : spec_float -> pystr)
    (lim : Json.limits) (x A : pyobj) :
  default_canonicalize float_repr lim x = Ok A <->
  exists s, Json.dumps float_repr lim x = Ok s /\ A = PyStr s.
Proof.
  unfold default_canonicalize.
  destruct (Json.dumps float_repr lim x) as [s|e]; split.
  - intros [= <-]. now exists s.
  - intros [s' [[= <-] ->]]. reflexivity.
  - discriminate.
  - intros [s' [[=] _]].
Qed.

(** X3: with the default canonicalization and a distance that is zero on
    equal strings, a reference that differs only by the insertion order of
    its dictionaries from a prediction whose canonicalization returns scores
    zero. *)
Theorem reordered_reference_scores_zero
    (float_repr : spec_float -> pystr) (lim : Json.limits)
    (parse_json_markdown : pystr -> result pyobj)
    (import_rapidfuzz : result string_distance_fn)
    (string_distance : option string_distance_fn)
    (init_kwargs : list (pystr * pyobj))
    (ev : JsonEditDistanceEvaluator)
    (prediction input reference p r A : pyobj)
    (kwargs : list (pystr * pyobj)) :
  outcome (__init__ float_repr lim import_rapidfuzz string_distance None
             init_kwargs) = Ok ev ->
  (forall s, exists z,
      _string_distance ev (PyStr s) (PyStr s) = Ok z /\ eq_zero z = true) ->
  outcome (_parse_json parse_json_markdown ev prediction) = Ok p ->
  outcome (_parse_json parse_json_markdown ev reference) = Ok r ->
  wf_pyobj p -> reordered p r ->
  _canonicalize ev p = Ok A ->
  exists score,
    outcome (_evaluate_strings parse_json_markdown ev prediction input
               reference kwargs) = Ok (PyDict [(lit "score", score)]) /\
    eq_zero score = true.
Proof.
  intros Hinit Hmetric Hp Hr Wp Rp HA.
  destruct (init_ok _ _ _ _ _ _ _ Hinit) as [Hc _].
  rewrite Hc in HA.
  destruct (proj1 (default_canonicalize_ok _ _ _ _) HA) as [s [Hs ->]].
  destruct (Hmetric s) as [z [Hz Hz0]].
  exists z. split; [|exact Hz0].
  rewrite evaluate_outcome, Hp, Hr, Hc. unfold default_canonicalize.
  rewrite <- (dumps_reordered float_repr lim p Wp r Rp), Hs, Hz.
  reflexivity.
Qed.

Lemma reordered_reference_scores_zero_witness :
  exists score,
    outcome (_evaluate_strings Sample.parse_json_markdown
               (Sample.evaluator Sample.discrete_distance)
               (PyDict [(lit "b", PyInt 2); (lit "a", PyInt 1)]) PyNone
               (PyDict [(lit "a", PyInt 1); (lit "b", PyInt 2)]) []) =
    Ok (PyDict [(lit "score", score)]) /\
    eq_zero score = true.
Proof.
  apply (reordered_reference_scores_zero Sample.float_repr Sample.lim
           Sample.parse_json_markdown Sample.with_rapidfuzz None []
           (Sample.evaluator Sample.discrete_distance)
           (PyDict [(lit "b", PyInt 2); (lit "a", PyInt 1)]) PyNone
           (PyDict [(lit "a", PyInt 1); (lit "b", PyInt 2)])
           (PyDict [(lit "b", PyInt 2); (lit "a", PyInt 1)])
           (PyDict [(lit "a", PyInt 1); (lit "b", PyInt 2)])
           (PyStr (lit "{" ++ [34; 97; 34]%N ++ lit ":1," ++ [34; 98; 34]%N ++
                   lit ":2}")) []);
    try reflexivity.
  - exact discrete_distance_refl.
  - cbn. repeat split; repeat constructor; simpl; intuition discriminate.
  - apply (reordered_dict _ [(lit "a", PyInt 1); (lit "b", PyInt 2)]).
    + apply perm_swap.
    + repeat constructor.
Defined.

(** X4: a text and the value the extractor returns for it are
    interchangeable, as prediction and as reference, provided that value is
    not itself a string (a string would be handed to the extractor
    again). *)
Theorem text_and_value_interchangeable
    (parse_json_markdown : pystr -> result pyobj)
    (self : JsonEditDistanceEvaluator)
    (text : pystr) (v other input : pyobj) (kwargs : list (pystr * pyobj)) :
  parse_json_markdown text = Ok v ->
  isinstance_str v = false ->
  outcome (_evaluate_strings parse_json_markdown self (PyStr text) input
             other kwargs) =
  outcome (_evaluate_strings parse_json_markdown self v input other
             kwargs) /\
  outcome (_evaluate_strings parse_json_markdown self other input
             (PyStr text) kwargs) =
  outcome (_evaluate_strings parse_json_markdown self other input v
             kwargs).
Proof.
  intros Hv Hns.
  assert (H1 : outcome (_parse_json parse_json_markdown self (PyStr text)) =
               Ok v) by exact Hv.
  assert (H2 : outcome (_parse_json parse_json_markdown self v) = Ok v)
    by (destruct v; try reflexivity; discriminate).
  rewrite !evaluate_outcome, H1, H2. split; reflexivity.
Qed.

Lemma text_and_value_interchangeable_witness :
  outcome (_evaluate_strings Sample.parse_json_markdown
             (Sample.evaluator Sample.discrete_distance)
             (PyStr (lit "[1, 2]")) PyNone (PyStr (lit "{}")) []) =
  outcome (_evaluate_strings Sample.parse_json_markdown
             (Sample.evaluator Sample.discrete_distance)
             (PyList [PyInt 1; PyInt 2]) PyNone (PyStr (lit "{}")) []).
Proof.
  apply (text_and_value_interchangeable Sample.parse_json_markdown
           (Sample.evaluator Sample.discrete_distance)
           (lit "[1, 2]") (PyList [PyInt 1; PyInt 2]) (PyStr (lit "{}"))
           PyNone []); reflexivity.
Defined.

(** X5: with the default canonicalization and a symmetric distance, swapping
    a prediction and a reference that both resolve, and whose
    canonicalizations both return, does not change the outcome. *)
Theorem symmetric_distance_symmetric_score
    (float_repr : spec_float -> pystr) (lim : Json.limits)
    (parse_json_markdown : pystr -> result pyobj)
    (import_rapidfuzz : result string_distance_fn)
    (string_distance : option string_distance_fn)
    (init_kwargs : list (pystr * pyobj))
    (ev : JsonEditDistanceEvaluator)
    (prediction input reference p r A B : pyobj)
    (kwargs : list (pystr * pyobj)) :
  outcome (__init__ float_repr lim import_rapidfuzz string_distance None
             init_kwargs) = Ok ev ->
  (forall a b,
      _string_distance ev (PyStr a) (PyStr b) =
      _string_distance ev (PyStr b) (PyStr a)) ->
  outcome (_parse_json parse_json_markdown ev prediction) = Ok p ->
  outcome (_parse_json parse_json_markdown ev reference) = Ok r ->
  _canonicalize ev p = Ok A ->
  _canonicalize ev r = Ok B ->
  outcome (_evaluate_strings parse_json_markdown ev prediction input
             reference kwargs) =
  outcome (_evaluate_strings parse_json_markdown ev reference input
             prediction kwargs).
Proof.
  intros Hinit Hsym Hp Hr HA HB.
  destruct (init_ok _ _ _ _ _ _ _ Hinit) as [Hc _].
  rewrite !evaluate_outcome, Hp, Hr, HA, HB.
  rewrite Hc in HA, HB.
  destruct (proj1 (default_canonicalize_ok _ _ _ _) HA) as [a [_ ->]].
  destruct (proj1 (default_canonicalize_ok _ _ _ _) HB) as [b [_ ->]].
  now rewrite Hsym.
Qed.

Lemma discrete_distance_sym (a b : pystr) :
  Sample.discrete_distance (PyStr a) (PyStr b) =
  Sample.discrete_distance (PyStr b) (PyStr a).
Proof.
  unfold Sample.discrete_distance, Sample.str_eqb.
  rewrite (str_compare_antisym a b).
  now destruct (str_compare a b).
Defined.

Lemma symmetric_distance_symmetric_score_witness :
  outcome (_evaluate_strings Sample.parse_json_markdown
             (Sample.evaluator Sample.discrete_distance)
             (PyStr (lit "[1, 2]")) PyNone (PyStr (lit "{}")) []) =
  outcome (_evaluate_strings Sample.parse_json_markdown
             (Sample.evaluator Sample.discrete_distance)
             (PyStr (lit "{}")) PyNone (PyStr (lit "[1, 2]")) []).
Proof.
  apply (symmetric_distance_symmetric_score Sample.float_repr Sample.lim
           Sample.parse_json_markdown Sample.with_rapidfuzz None []
           (Sample.evaluator Sample.discrete_distance)
           (PyStr (lit "[1, 2]")) PyNone (PyStr (lit "{}"))
           (PyList [PyInt 1; PyInt 2]) (PyDict [])
           (PyStr (lit "[1,2]")) (PyStr (lit "{}")) []);
    try reflexivity.
  exact discrete_distance_sym.
Defined.

(** ** Construction, further *)

(** X6: [__init__] translates only [ImportError]: any other exception
    raised while importing [rapidfuzz] reaches the caller unchanged, after
    the one import. *)
Theorem init_other_import_failure_propagates
    (float_repr : spec_float -> pystr) (lim : Json.limits)
    (import_rapidfuzz : result string_distance_fn)
    (canonicalize : option canonicalize_fn)
    (kwargs : list (pystr * pyobj)) (e : exn) :
  import_rapidfuzz = Raise e ->
  is_ImportError e = false ->
  __init__ float_repr lim import_rapidfuzz None canonicalize kwargs =
  ([Import_rapidfuzz], Raise e).
Proof.
  intros Himp He. rewrite init_default, Himp, He. reflexivity.
Qed.

Lemma init_other_import_failure_propagates_witness :
  __init__ Sample.float_repr Sample.lim
    (Raise (OtherException "OSError" "cannot load shared object")) None None
    [] =
  ([Import_rapidfuzz],
   Raise (OtherException "OSError" "cannot load shared object")).
Proof.
  apply (init_other_import_failure_propagates Sample.float_repr Sample.lim
           (Raise (OtherException "OSError" "cannot load shared object"))
           None [] (OtherException "OSError" "cannot load shared object"));
    reflexivity.
Defined.



(** ** Exceptions and calls of the evaluation *)

(** X8: [_evaluate_strings] raises nothing of its own: an exception it
    raises was raised by the extractor on the prediction or the reference,
    by the canonicalization on one of the resolved values, or by the
    distance on the two canonical forms. *)
Theorem evaluate_exception_origin
    (parse_json_markdown : pystr -> result pyobj)
    (self : JsonEditDistanceEvaluator)
    (prediction input reference : pyobj) (kwargs : list (pystr * pyobj))
    (e : exn) :
  outcome (_evaluate_strings parse_json_markdown self prediction input
             reference kwargs) = Raise e ->
  (exists text, prediction = PyStr text /\
                parse_json_markdown text = Raise e) \/
  (exists text, reference = PyStr text /\
                parse_json_markdown text = Raise e) \/
  (exists x, _canonicalize self x = Raise e) \/
  (exists a b, _string_distance self a b = Raise e).
Proof.
  rewrite evaluate_outcome.
  destruct (outcome (_parse_json _ self prediction)) as [p|e1] eqn:Hp.
  2: { intros [= ->]. left.
       destruct prediction; try discriminate. now eexists. }
  destruct (_canonicalize self p) as [A|e1] eqn:HA.
  2: { intros [= ->]. right; right; left. now exists p. }
  destruct (outcome (_parse_json _ self reference)) as [r|e1] eqn:Hr.
  2: { intros [= ->]. right; left.
       destruct reference; try discriminate. now eexists. }
  destruct (_canonicalize self r) as [B|e1] eqn:HB.
  2: { intros [= ->]. right; right; left. now exists r. }
  destruct (_string_distance self A B) as [s|e1] eqn:Hs; [discriminate|].
  intros [= ->]. right; right; right. now exists A, B.
Qed.

Lemma evaluate_exception_origin_witness :
  (exists text, PyStr (lit "oops") = PyStr text /\
                Sample.parse_json_markdown text =
                Raise (JSONDecodeError "Expecting value")) \/
  (exists text, PyNone = PyStr text /\
                Sample.parse_json_markdown text =
                Raise (JSONDecodeError "Expecting value")) \/
  (exists x, _canonicalize (Sample.evaluator Sample.far_distance) x =
             Raise (JSONDecodeError "Expecting value")) \/
  (exists a b, _string_distance (Sample.evaluator Sample.far_distance) a b =
               Raise (JSONDecodeError "Expecting value")).
Proof.
  apply (evaluate_exception_origin Sample.parse_json_markdown
           (Sample.evaluator Sample.far_distance)
           (PyStr (lit "oops")) PyNone PyNone []
           (JSONDecodeError "Expecting value")).
  reflexivity.
Defined.

(** X9: with the default canonicalization, an evaluation returns a score
    exactly when the prediction and the reference both resolve, the encoder
    renders both, and the distance returns on the two renderings. *)
Theorem default_evaluate_returns_iff
    (float_repr : spec_float -> pystr) (lim : Json.limits)
    (parse_json_markdown : pystr -> result pyobj)
    (import_rapidfuzz : result string_distance_fn)
    (string_distance : option string_distance_fn)
    (init_kwargs : list (pystr * pyobj))
    (ev : JsonEditDistanceEvaluator)
    (prediction input reference : pyobj) (kwargs : list (pystr * pyobj))
    (res : pyobj) :
  outcome (__init__ float_repr lim import_rapidfuzz string_distance None
             init_kwargs) = Ok ev ->
  (outcome (_evaluate_strings parse_json_markdown ev prediction input
              reference kwargs) = Ok res <->
   exists p r a b score,
     outcome (_parse_json parse_json_markdown ev prediction) = Ok p /\
     outcome (_parse_json parse_json_markdown ev reference) = Ok r /\
     Json.dumps float_repr lim p = Ok a /\
     Json.dumps float_repr lim r = Ok b /\
     _string_distance ev (PyStr a) (PyStr b) = Ok score /\
     res = PyDict [(lit "score", score)]).
Proof.
  intros Hinit.
  destruct (init_ok _ _ _ _ _ _ _ Hinit) as [Hc _].
  rewrite evaluate_outcome, Hc. unfold default_canonicalize. split.
  - destruct (outcome (_parse_json _ ev prediction)) as [p|e];
      [|discriminate].
    destruct (Json.dumps float_repr lim p) as [a|e] eqn:Ha; [|discriminate].
    destruct (outcome (_parse_json _ ev reference)) as [r|e];
      [|discriminate].
    destruct (Json.dumps float_repr lim r) as [b|e] eqn:Hb; [|discriminate].
    destruct (_string_distance ev _ _) as [s|e] eqn:Hs; [|discriminate].
    intros [= <-]. exists p, r, a, b, s. now repeat split.
  - intros [p [r [a [b [s [-> [-> [Ha [Hb [Hs ->]]]]]]]]]].
    now rewrite Ha, Hb, Hs.
Qed.

Lemma default_evaluate_returns_iff_witness :
  outcome (_evaluate_strings Sample.parse_json_markdown
             (Sample.evaluator Sample.far_distance)
             (PyStr (lit "{}")) PyNone (PyBool true) []) =
  Ok (PyDict [(lit "score", PyFloat Sample.f2_5)]) <->
  exists p r a b score,
    outcome (_parse_json Sample.parse_json_markdown
               (Sample.evaluator Sample.far_distance) (PyStr (lit "{}"))) =
    Ok p /\
    outcome (_parse_json Sample.parse_json_markdown
               (Sample.evaluator Sample.far_distance) (PyBool true)) =
    Ok r /\
    Json.dumps Sample.float_repr Sample.lim p = Ok a /\
    Json.dumps Sample.float_repr Sample.lim r = Ok b /\
    _string_distance (Sample.evaluator Sample.far_distance)
      (PyStr a) (PyStr b) = Ok score /\
    PyDict [(lit "score", PyFloat Sample.f2_5)] =
    PyDict [(lit "score", score)].
Proof.
  apply (default_evaluate_returns_iff Sample.float_repr Sample.lim
           Sample.parse_json_markdown Sample.no_rapidfuzz
           (Some Sample.far_distance) []
           (Sample.evaluator Sample.far_distance)
           (PyStr (lit "{}")) PyNone (PyBool true) []
           (PyDict [(lit "score", PyFloat Sample.f2_5)])).
  reflexivity.
Defined.

(** X10: the prediction is handled first: when it does not resolve, or its
    canonicalization raises, the evaluation stops there, and neither its
    calls nor its outcome depend on the reference. *)
Theorem prediction_failure_ignores_reference
    (parse_json_markdown : pystr -> result pyobj)
    (self : JsonEditDistanceEvaluator)
    (prediction input reference1 reference2 : pyobj)
    (kwargs : list (pystr * pyobj)) (e : exn) :
  outcome (_parse_json parse_json_markdown self prediction) = Raise e \/
  (exists p,
     outcome (_parse_json parse_json_markdown self prediction) = Ok p /\
     _canonicalize self p = Raise e) ->
  outcome (_evaluate_strings parse_json_markdown self prediction input
             reference1 kwargs) = Raise e /\
  _evaluate_strings parse_json_markdown self prediction input reference1
    kwargs =
  _evaluate_strings parse_json_markdown self prediction input reference2
    kwargs.
Proof.
  intros [H | [p [Hp HA]]]; rewrite !evaluate_steps; cbv zeta.
  - rewrite H. now split.
  - rewrite Hp, HA. now split.
Qed.

Lemma prediction_failure_ignores_reference_witness :
  outcome (_evaluate_strings Sample.parse_json_markdown
             (Sample.evaluator Sample.discrete_distance)
             (PyStr (lit "oops")) PyNone (PyStr (lit "also bad")) []) =
  Raise (JSONDecodeError "Expecting value") /\
  _evaluate_strings Sample.parse_json_markdown
    (Sample.evaluator Sample.discrete_distance)
    (PyStr (lit "oops")) PyNone (PyStr (lit "also bad")) [] =
  _evaluate_strings Sample.parse_json_markdown
    (Sample.evaluator Sample.discrete_distance)
    (PyStr (lit "oops")) PyNone (PyStr (lit "{}")) [].
Proof.
  apply (prediction_failure_ignores_reference Sample.parse_json_markdown
           (Sample.evaluator Sample.discrete_distance)
           (PyStr (lit "oops")) PyNone (PyStr (lit "also bad"))
           (PyStr (lit "{}")) [] (JSONDecodeError "Expecting value")).
  left. reflexivity.
Defined.

(** A resolution calls nothing but the extractor, and that once, on a
    string. *)
Lemma resolve_trace
    (parse_json_markdown : pystr -> result pyobj)
    (self : JsonEditDistanceEvaluator) (node : pyobj) :
  trace (_parse_json parse_json_markdown self node) =
  match node with
  | PyStr text => [Call_parse_json_markdown text]
  | _ => []
  end.
Proof. now destruct node. Qed.

Lemma count_app (kind : event -> bool) (t1 t2 : list event) :
  count kind (t1 ++ t2) = count kind t1 + count kind t2.
Proof. unfold count. now rewrite filter_app, length_app. Qed.

(** X11: with the default canonicalization, the distance is only ever
    called on two strings, the canonical forms of the resolved prediction
    and reference. *)
Theorem default_distance_called_on_canonical_strings
    (float_repr : spec_float -> pystr) (lim : Json.limits)
    (parse_json_markdown : pystr -> result pyobj)
    (import_rapidfuzz : result string_distance_fn)
    (string_distance : option string_distance_fn)
    (init_kwargs : list (pystr * pyobj))
    (ev : JsonEditDistanceEvaluator)
    (prediction input reference : pyobj) (kwargs : list (pystr * pyobj))
    (a b : pyobj) :
  outcome (__init__ float_repr lim import_rapidfuzz string_distance None
             init_kwargs) = Ok ev ->
  In (Call_string_distance a b)
    (trace (_evaluate_strings parse_json_markdown ev prediction input
              reference kwargs)) ->
  exists p r sa sb,
    outcome (_parse_json parse_json_markdown ev prediction) = Ok p /\
    outcome (_parse_json parse_json_markdown ev reference) = Ok r /\
    Json.dumps float_repr lim p = Ok sa /\ a = PyStr sa /\
    Json.dumps float_repr lim r = Ok sb /\ b = PyStr sb.
Proof.
  intros Hinit.
  destruct (init_ok _ _ _ _ _ _ _ Hinit) as [Hc _].
  rewrite evaluate_steps. cbv zeta. rewrite Hc. unfold default_canonicalize.
  rewrite !resolve_trace.
  destruct (outcome (_parse_json _ ev prediction)) as [p|e].
  2: { cbn. destruct prediction; cbn; intuition discriminate. }
  destruct (Json.dumps float_repr lim p) as [sa|e] eqn:Ha.
  2: { cbn. rewrite !in_app_iff.
       destruct prediction; cbn; intuition discriminate. }
  destruct (outcome (_parse_json _ ev reference)) as [r|e].
  2: { cbn. rewrite !in_app_iff.
       destruct prediction, reference; cbn; intuition discriminate. }
  destruct (Json.dumps float_repr lim r) as [sb|e] eqn:Hb.
  2: { cbn. rewrite !in_app_iff.
       destruct prediction, reference; cbn; intuition discriminate. }
  cbn. rewrite !in_app_iff. intros H.
  assert (Hd : Call_string_distance a b =
               Call_string_distance (PyStr sa) (PyStr sb)).
  { destruct prediction, reference; cbn in H;
      intuition (try discriminate; congruence). }
  injection Hd as -> ->. exists p, r, sa, sb. now repeat split.
Qed.

Lemma default_distance_called_on_canonical_strings_witness :
  exists p r sa sb,
    outcome (_parse_json Sample.parse_json_markdown
               (Sample.evaluator Sample.far_distance) (PyStr (lit "{}"))) =
    Ok p /\
    outcome (_parse_json Sample.parse_json_markdown
               (Sample.evaluator Sample.far_distance) PyNone) = Ok r /\
    Json.dumps Sample.float_repr Sample.lim p = Ok sa /\
    PyStr (lit "{}") = PyStr sa /\
    Json.dumps Sample.float_repr Sample.lim r = Ok sb /\
    PyStr (lit "null") = PyStr sb.
Proof.
  apply (default_distance_called_on_canonical_strings Sample.float_repr
           Sample.lim Sample.parse_json_markdown Sample.no_rapidfuzz
           (Some Sample.far_distance) []
           (Sample.evaluator Sample.far_distance)
           (PyStr (lit "{}")) PyNone PyNone []
           (PyStr (lit "{}")) (PyStr (lit "null"))).
  - reflexivity.
  - vm_compute. tauto.
Defined.

(** X12: one evaluation calls the distance at most once, the
    canonicalization at most twice and the extractor at most twice; when it
    returns, it has called the distance once, the canonicalization twice
    and the extractor once for each of the prediction and the reference
    that is a string. *)
Theorem evaluate_call_counts
    (parse_json_markdown : pystr -> result pyobj)
    (self : JsonEditDistanceEvaluator)
    (prediction input reference : pyobj) (kwargs : list (pystr * pyobj)) :
  let run := _evaluate_strings parse_json_markdown self prediction input
               reference kwargs in
  count is_distance_call (trace run) <= 1 /\
  count is_canonicalize_call (trace run) <= 2 /\
  count is_extractor_call (trace run) <= 2 /\
  (forall res, outcome run = Ok res ->
     count is_distance_call (trace run) = 1 /\
     count is_canonicalize_call (trace run) = 2 /\
     count is_extractor_call (trace run) =
     (if isinstance_str prediction then 1 else 0) +
     (if isinstance_str reference then 1 else 0)).
Proof.
  cbv zeta. rewrite evaluate_steps. cbv zeta. rewrite !resolve_trace.
  destruct (outcome (_parse_json _ self prediction)) as [p|e1].
  2: { destruct prediction; cbn; repeat split;
         try lia; intros; discriminate. }
  destruct (_canonicalize self p) as [A|e1].
  2: { destruct prediction; cbn; repeat split;
         try lia; intros; discriminate. }
  destruct (outcome (_parse_json _ self reference)) as [r|e1].
  2: { destruct prediction, reference; cbn; repeat split;
         try lia; intros; discriminate. }
  destruct (_canonicalize self r) as [B|e1].
  2: { destruct prediction, reference; cbn; repeat split;
         try lia; intros; discriminate. }
  destruct (_string_distance self A B) as [s|e1];
    destruct prediction, reference; cbn; repeat split;
      try lia; intros; discriminate.
Qed.

Lemma evaluate_call_counts_witness :
  count is_distance_call
    (trace (_evaluate_strings Sample.parse_json_markdown
              (Sample.evaluator Sample.discrete_distance)
              (PyStr (lit "[1, 2]")) PyNone (PyList []) [])) = 1 /\
  count is_canonicalize_call
    (trace (_evaluate_strings Sample.parse_json_markdown
              (Sample.evaluator Sample.discrete_distance)
              (PyStr (lit "[1, 2]")) PyNone (PyList []) [])) = 2 /\
  count is_extractor_call
    (trace (_evaluate_strings Sample.parse_json_markdown
              (Sample.evaluator Sample.discrete_distance)
              (PyStr (lit "[1, 2]")) PyNone (PyList []) [])) = 1 + 0.
Proof.
  apply (proj2 (proj2 (proj2
           (evaluate_call_counts Sample.parse_json_markdown
              (Sample.evaluator Sample.discrete_distance)
              (PyStr (lit "[1, 2]")) PyNone (PyList []) [])))
           (PyDict [(lit "score", PyFloat Sample.f1)])).
  reflexivity.
Defined.

(** ** The characters of the default canonical form *)

Lemma Forall_join (P : N -> Prop) (sep : pystr) (parts : list pystr) :
  Forall P sep -> Forall (Forall P) parts -> Forall P (join sep parts).
Proof.
  intros Hsep. induction 1 as [|p rest Hp Hrest IH]; simpl.
  - constructor.
  - destruct rest as [|q rest]; [exact Hp|].
    apply Forall_app. split; [exact Hp|].
    apply Forall_app. split; [exact Hsep | exact IH].
Qed.

Ltac in_literal := cbn; repeat (first [left; reflexivity | right]).

(** A decimal numeral is made of digits. *)
Lemma string_of_uint_digits (d : Decimal.uint) :
  Forall (fun c => In c (lit "0123456789"))
    (lit (NilEmpty.string_of_uint d)).
Proof.
  induction d; cbn [NilEmpty.string_of_uint lit list_ascii_of_string map];
    try constructor; try exact IHd; in_literal.
Qed.

(** [int.__repr__] writes digits and at most a sign. *)
Lemma int_repr_chars (z : Z) :
  Forall (fun c => In c (lit "-0123456789")) (Json.int_repr z).
Proof.
  assert (Hu : forall d,
             Forall (fun c => In c (lit "-0123456789"))
               (lit (NilZero.string_of_uint d))).
  { intros d.
    assert (Hd := string_of_uint_digits d).
    destruct d; try (eapply Forall_impl; [|exact Hd]; cbn; tauto).
    cbn. constructor; [in_literal | constructor]. }
  unfold Json.int_repr. destruct (Z.to_int z) as [d|d].
  - apply Hu.
  - cbn [NilZero.string_of_int lit list_ascii_of_string map].
    constructor; [in_literal | apply Hu].
Qed.

(** What holds of every value the steps can return holds of the values a
    successful sequence returns. *)
Lemma sequence_Forall {A : Type} (R : A -> Prop) (rs : list (result A)) :
  Forall (fun r => forall a, r = Ok a -> R a) rs ->
  forall l, Json.sequence rs = Ok l -> Forall R l.
Proof.
  induction 1 as [|r rs Hr _ IH]; cbn; intros l Hl.
  - injection Hl as <-. constructor.
  - destruct r as [a|e]; [|discriminate].
    destruct (Json.sequence rs) as [l'|e]; [|discriminate].
    injection Hl as <-. constructor; auto.
Qed.

Section DumpsChars.

Variable float_repr : spec_float -> pystr.
Variable lim : Json.limits.

(** A property of code points, and a property of strings that makes the
    encoding of a string satisfy it. *)
Variable P : N -> Prop.
Variable Q : pystr -> Prop.

Hypothesis P_structural : Forall P structural_chars.
Hypothesis P_float : forall f, Forall P (float_repr f).
Hypothesis P_str : forall s, Q s -> Forall P (Json.encode_basestring_ascii s).

Lemma P_of_structural (l : pystr) :
  Forall (fun c => In c structural_chars) l -> Forall P l.
Proof.
  apply Forall_impl. intros c Hc.
  now apply (proj1 (Forall_forall P structural_chars) P_structural).
Qed.

Lemma P_lit_structural (l : pystr) :
  forallb (fun c => existsb (N.eqb c) structural_chars) l = true ->
  Forall P l.
Proof.
  intros H. apply P_of_structural.
  rewrite forallb_forall in H. apply Forall_forall. intros c Hc.
  specialize (H c Hc). apply existsb_exists in H.
  destruct H as [c' [Hin Heq]]. apply N.eqb_eq in Heq. now subst.
Qed.

Lemma all_strs_list (l : list pyobj) :
  all_strs Q (PyList l) <-> Forall (all_strs Q) l.
Proof.
  cbn [all_strs]. induction l as [|x l IH]; simpl.
  - split; constructor.
  - rewrite IH. split.
    + intros [? ?]. now constructor.
    + now inversion 1.
Qed.

Lemma all_strs_dict (d : list (pystr * pyobj)) :
  all_strs Q (PyDict d) <->
  Forall (fun kv => Q (fst kv) /\ all_strs Q (snd kv)) d.
Proof.
  cbn [all_strs]. induction d as [|x d IH]; simpl.
  - split; constructor.
  - rewrite IH. split.
    + intros [? ?]. now constructor.
    + now inversion 1.
Qed.

(** Every character of a rendering satisfies [P]. *)
Lemma encode_chars (o : pyobj) :
  all_strs Q o ->
  forall depth s,
    Json.encode float_repr lim depth o = Ok s -> Forall P s.
Proof.
  induction o as [|b|z|f|t|l IH|d IH] using pyobj_nested_ind;
    intros Hq depth s Hs.
  - injection Hs as <-. now apply P_lit_structural.
  - destruct b; injection Hs as <-; now apply P_lit_structural.
  - cbn [Json.encode] in Hs. unfold Json.int_str in Hs.
    match type of Hs with
    | (if ?c then _ else _) = _ => destruct c; [discriminate|]
    end.
    injection Hs as <-.
    apply P_of_structural. eapply Forall_impl; [|apply int_repr_chars].
    intros c Hc. cbn in Hc. unfold structural_chars. cbn. tauto.
  - injection Hs as <-.
    destruct f as [| [|] | |]; cbn; try apply P_float;
      now apply P_lit_structural.
  - injection Hs as <-. now apply P_str.
  - destruct depth as [|depth]; [discriminate|].
    cbn [Json.encode] in Hs. apply all_strs_list in Hq.
    destruct (Json.sequence (map (Json.encode float_repr lim depth) l))
      as [parts|e] eqn:Hseq; [|discriminate].
    assert (Heq : s = lit "[" ++ join (lit ",") parts ++ lit "]")
      by congruence.
    rewrite Heq. clear Heq Hs.
    apply Forall_app. split; [now apply P_lit_structural|].
    apply Forall_app. split; [|now apply P_lit_structural].
    apply Forall_join; [now apply P_lit_structural|].
    apply (sequence_Forall (Forall P) _) with (2 := Hseq).
    rewrite Forall_map. rewrite Forall_forall in IH, Hq |- *.
    intros x Hx a Ha. now apply (IH x Hx (Hq x Hx) depth a).
  - destruct depth as [|depth]; [discriminate|].
    rewrite encode_dict in Hs. apply all_strs_dict in Hq.
    match type of Hs with
    | match Json.sequence ?rs with _ => _ end = _ =>
        destruct (Json.sequence rs) as [parts|e] eqn:Hseq; [|discriminate]
    end.
    assert (Heq : s = lit "{" ++ join (lit ",") parts ++ lit "}")
      by congruence.
    rewrite Heq. clear Heq Hs.
    apply Forall_app. split; [now apply P_lit_structural|].
    apply Forall_app. split; [|now apply P_lit_structural].
    apply Forall_join; [now apply P_lit_structural|].
    apply (sequence_Forall (Forall P) _) with (2 := Hseq).
    rewrite Forall_map. rewrite Forall_forall in IH, Hq |- *.
    intros kv Hkv a Ha.
    assert (Hin : In kv d)
      by (eapply Permutation_in; [apply sorted_perm | exact Hkv]).
    destruct (Hq kv Hin) as [Hk Hv].
    destruct (Json.encode float_repr lim depth (snd kv)) as [v|e] eqn:Hev;
      [|discriminate].
    assert (Heq : a = Json.encode_basestring_ascii (fst kv) ++ lit ":" ++ v)
      by congruence.
    rewrite Heq. clear Heq Ha.
    apply Forall_app. split; [now apply P_str|].
    apply Forall_app. split; [now apply P_lit_structural|].
    now apply (IH kv Hin Hv depth v).
Qed.

End DumpsChars.

Ltac each_char tac :=
  cbn [app]; repeat (apply Forall_cons; [tac|]); try apply Forall_nil.

Lemma hex_digit_visible (n : N) : visible (Json.hex_digit (n mod 16)).
Proof.
  assert (H : (n mod 16 < 16)%N) by (apply N.mod_upper_bound; discriminate).
  revert H. generalize (n mod 16)%N. intros m H.
  unfold visible, Json.hex_digit.
  destruct (N.ltb_spec m 10); lia.
Qed.

Lemma u_escape_visible (n : N) : Forall visible (Json.u_escape n).
Proof.
  unfold Json.u_escape, Json.hex4.
  each_char ltac:(first [apply hex_digit_visible | unfold visible; lia]).
Qed.

(** What replaces a character is visible, but for the space, kept as it
    is. *)
Lemma escape_char_visible (c : N) :
  c <> 32%N -> Forall visible (Json.escape_char c).
Proof.
  intros Hc. unfold Json.escape_char.
  repeat match goal with
         | |- context [N.eqb c ?k] =>
             destruct (N.eqb_spec c k);
             [each_char ltac:(unfold visible; lia)|]
         end.
  destruct (N.leb_spec 32 c); destruct (N.leb_spec c 126); cbn [andb];
    try (each_char ltac:(unfold visible; lia));
    (destruct (N.ltb_spec c 65536);
     [apply u_escape_visible
     | apply Forall_app; split; apply u_escape_visible]).
Qed.

Lemma visible_printable (l : pystr) : Forall visible l -> Forall printable l.
Proof. apply Forall_impl. unfold visible, printable. lia. Qed.

Lemma escape_char_printable (c : N) : Forall printable (Json.escape_char c).
Proof.
  destruct (N.eq_dec c 32) as [->|Hc].
  - each_char ltac:(unfold printable; lia).
  - now apply visible_printable, escape_char_visible.
Qed.

Lemma structural_chars_visible : Forall visible structural_chars.
Proof.
  unfold structural_chars. cbn. each_char ltac:(unfold visible; lia).
Qed.

Lemma encode_printable (s : pystr) :
  Forall printable (Json.encode_basestring_ascii s).
Proof.
  unfold Json.encode_basestring_ascii.
  apply Forall_app. split; [each_char ltac:(unfold printable; lia)|].
  apply Forall_app. split; [|each_char ltac:(unfold printable; lia)].
  apply Forall_flat_map.
  apply Forall_forall. intros c _. apply escape_char_printable.
Qed.

Lemma encode_visible (s : pystr) :
  ~ In 32%N s -> Forall visible (Json.encode_basestring_ascii s).
Proof.
  intros Hs. unfold Json.encode_basestring_ascii.
  apply Forall_app. split; [each_char ltac:(unfold visible; lia)|].
  apply Forall_app. split; [|each_char ltac:(unfold visible; lia)].
  apply Forall_flat_map.
  apply Forall_forall. intros c Hc. apply escape_char_visible.
  intros ->. contradiction.
Qed.

(** X13: a default canonical form is a string of printable ASCII
    characters only ([' '..'~']): no control character, no line break and
    no character beyond ASCII, whatever the strings of the value hold,
    provided [float.__repr__] writes such characters. *)
Theorem default_canonical_form_printable
    (float_repr : spec_float -> pystr) (lim : Json.limits) (x A : pyobj) :
  (forall f, Forall printable (float_repr f)) ->
  default_canonicalize float_repr lim x = Ok A ->
  exists s, A = PyStr s /\ Forall printable s.
Proof.
  intros Hf HA.
  destruct (proj1 (default_canonicalize_ok _ _ _ _) HA) as [s [Hs ->]].
  exists s. split; [reflexivity|].
  apply (encode_chars float_repr lim printable (fun _ => True)) with
    (o := x) (depth := Json.recursion_depth lim).
  - apply visible_printable, structural_chars_visible.
  - exact Hf.
  - intros t _. apply encode_printable.
  - clear. induction x using pyobj_nested_ind; cbn; trivial.
    + induction H; cbn; auto.
    + induction H; cbn; auto.
  - exact Hs.
Qed.

Lemma sample_float_repr_visible (f : spec_float) :
  Forall visible (Sample.float_repr f).
Proof.
  destruct f as [[|]| | |]; cbn; each_char ltac:(unfold visible; lia).
Defined.

Lemma default_canonical_form_printable_witness :
  exists s,
    PyStr ([123; 34]%N ++ lit "\n\u00e9" ++ [34; 58; 34]%N ++
           lit "\ud83d\ude00 \t" ++ [34; 125]%N) = PyStr s /\
    Forall printable s.
Proof.
  apply (default_canonical_form_printable Sample.float_repr Sample.lim
           (PyDict [([10; 233]%N, PyStr [128512; 32; 9]%N)])).
  - intros f. apply visible_printable, sample_float_repr_visible.
  - reflexivity.
Defined.

(** X14: the separators add no whitespace: when no string of the value
    (its string values and dictionary keys, at any depth) holds a space, a
    default canonical form of it holds no whitespace at all, every character
    being in ['!'..'~']. *)
Theorem default_canonical_form_no_whitespace
    (float_repr : spec_float -> pystr) (lim : Json.limits) (x A : pyobj) :
  (forall f, Forall visible (float_repr f)) ->
  all_strs (fun s => ~ In 32%N s) x ->
  default_canonicalize float_repr lim x = Ok A ->
  exists s, A = PyStr s /\ Forall visible s.
Proof.
  intros Hf Hx HA.
  destruct (proj1 (default_canonicalize_ok _ _ _ _) HA) as [s [Hs ->]].
  exists s. split; [reflexivity|].
  apply (encode_chars float_repr lim visible (fun s => ~ In 32%N s)) with
    (o := x) (depth := Json.recursion_depth lim).
  - apply structural_chars_visible.
  - exact Hf.
  - intros t. apply encode_visible.
  - exact Hx.
  - exact Hs.
Qed.

Lemma default_canonical_form_no_whitespace_witness :
  exists s,
    PyStr ([123; 34; 97; 34]%N ++ lit ":0.0," ++ [34; 98; 34]%N ++
           lit ":[1," ++ [34]%N ++ lit "\t\n" ++ [34]%N ++ lit "]}") =
    PyStr s /\
    Forall visible s.
Proof.
  apply (default_canonical_form_no_whitespace Sample.float_repr Sample.lim
           (PyDict [(lit "b", PyList [PyInt 1; PyStr [9; 10]%N]);
                    (lit "a", PyFloat Sample.f0)])).
  - exact sample_float_repr_visible.
  - cbn. intuition discriminate.
  - reflexivity.
Defined.

(** X15: a string of printable ASCII characters without quote or backslash
    is rendered as it is, between two quotes. *)
Theorem encode_plain_ascii (s : pystr) :
  Forall (fun c => printable c /\ c <> 34%N /\ c <> 92%N) s ->
  Json.encode_basestring_ascii s = [34%N] ++ s ++ [34%N].
Proof.
  intros Hs. unfold Json.encode_basestring_ascii. do 2 f_equal.
  induction Hs as [|c s [Hp [Hq Hb]] _ IH]; [reflexivity|].
  cbn [flat_map]. rewrite IH. f_equal.
  unfold printable in Hp. unfold Json.escape_char.
  repeat match goal with
         | |- context [N.eqb c ?k] => destruct (N.eqb_spec c k); [lia|]
         end.
  destruct (N.leb_spec 32 c); [|lia].
  destruct (N.leb_spec c 126); [|lia].
  reflexivity.
Qed.

Lemma encode_plain_ascii_witness :
  Json.encode_basestring_ascii (lit "user id") =
  [34%N] ++ lit "user id" ++ [34%N].
Proof.
  apply (encode_plain_ascii (lit "user id")).
  cbn. each_char ltac:(unfold printable; lia).
Defined.

(** X16: the items the encoder renders for a dictionary are the items of
    the dictionary, each once, in strictly ascending order of their keys. *)
Theorem sorted_items_ascending {V : Type} (d : list (pystr * V)) :
  NoDup (keys d) ->
  Permutation (Json.sorted d) d /\ StronglySorted key_lt (Json.sorted d).
Proof.
  intros Hnd. split; [apply sorted_perm | now apply sorted_strict].
Qed.

Lemma sorted_items_ascending_witness :
  Permutation
    (Json.sorted [(lit "b", 2); (lit "a", 1); (lit "B", 3)])
    [(lit "b", 2); (lit "a", 1); (lit "B", 3)] /\
  StronglySorted key_lt
    (Json.sorted [(lit "b", 2); (lit "a", 1); (lit "B", 3)]).
Proof.
  apply (sorted_items_ascending [(lit "b", 2); (lit "a", 1); (lit "B", 3)]).
  repeat constructor; simpl; intuition discriminate.
Defined.
